(** * Startup configuration of the inventory web service

    A shallow embedding of [app/config.py] (the module body: [load_dotenv()]
    followed by the body of [class Config]) and of [create_app] from
    [app/__init__.py], together with the library calls they make
    ([os.getenv], [os.urandom], [bytes.hex], [Fernet.generate_key],
    [dotenv.load_dotenv]).

    Python [str] is [string], [bytes] is [list byte], [os.environ] and the
    content-security-policy dict are [gmap]s keyed by strings.  The module
    body runs in a small state-and-exception monad over the part of the
    process it touches.  Of python-dotenv the model has what
    [load_dotenv()] does with the statements its parser has read:
    interpolation, the precedence of [os.environ], the switch
    [PYTHON_DOTENV_DISABLED] and the warnings for statements that cannot be
    parsed. *)

From Stdlib Require Import ZArith NArith Lia.
From Stdlib Require Import Strings.String Strings.Ascii Strings.Byte.
From stdpp Require Import base option list strings gmap fin_maps pretty.

Local Open Scope string_scope.
Local Open Scope N_scope.

(** ** Preliminaries *)

Section list_by_three.
Context {A : Type} (P : list A -> Prop).
Hypothesis P_nil : P [].
Hypothesis P_one : forall a, P [a].
Hypothesis P_two : forall a b, P [a; b].
Hypothesis P_more : forall a b c l, P l -> P (a :: b :: c :: l).

(** Induction that peels three elements at a time, as the encoder does. *)
Fixpoint list_ind3 (l : list A) : P l :=
  match l with
  | [] => P_nil
  | [a] => P_one a
  | [a; b] => P_two a b
  | a :: b :: c :: l' => P_more a b c l' (list_ind3 l')
  end.
End list_by_three.

Ltac euclid := zify; Z.to_euclidean_division_equations; lia.

(** ** [bytes.hex()] and [bytes.fromhex()] *)

Module Hex.

(** Lower-case hexadecimal digit of a nibble. *)
Definition digit (n : N) : ascii :=
  match n with
  | 0 => "0" | 1 => "1" | 2 => "2" | 3 => "3"
  | 4 => "4" | 5 => "5" | 6 => "6" | 7 => "7"
  | 8 => "8" | 9 => "9" | 10 => "a" | 11 => "b"
  | 12 => "c" | 13 => "d" | 14 => "e" | _ => "f"
  end%char.

Definition nibble (c : ascii) : option N :=
  let n := N_of_ascii c in
  if (48 <=? n) && (n <=? 57) then Some (n - 48)
  else if (97 <=? n) && (n <=? 102) then Some (n - 87)
  else if (65 <=? n) && (n <=? 70) then Some (n - 55)
  else None.

(** [bytes.hex()]: two digits per byte, high nibble first. *)
Fixpoint hex (bs : list byte) : string :=
  match bs with
  | [] => EmptyString
  | b :: bs' =>
      let n := Byte.to_N b in
      String (digit (N.shiftr n 4)) (String (digit (N.land n 15)) (hex bs'))
  end.

Definition unhex_byte (hi lo : ascii) : option byte :=
  h ← nibble hi;
  l ← nibble lo;
  Byte.of_N (N.lor (N.shiftl h 4) l).

(** [bytes.fromhex()] on a string without white space. *)
Fixpoint fromhex (s : string) : option (list byte) :=
  match s with
  | EmptyString => Some []
  | String _ EmptyString => None
  | String hi (String lo s') =>
      b ← unhex_byte hi lo;
      bs ← fromhex s';
      Some (b :: bs)
  end.

End Hex.

(** ** URL-safe base64 (RFC 4648, section 5), as [base64.urlsafe_b64encode]
    and [base64.urlsafe_b64decode] compute it on padded input *)

Module Base64.

(** The URL-safe alphabet: [+] and [/] of the standard one are [-] and [_]. *)
Definition alphabet : list byte :=
  list_byte_of_string
    "ABCDEFGHIJKLMNOPQRSTUVWXYZabcdefghijklmnopqrstuvwxyz0123456789-_".

Definition pad : byte := "="%byte.

Definition char_of_sextet (s : N) : byte :=
  nth (N.to_nat s) alphabet pad.

Fixpoint index_of (c : byte) (tbl : list byte) (i : N) : option N :=
  match tbl with
  | [] => None
  | x :: tbl' => if Byte.eqb c x then Some i else index_of c tbl' (N.succ i)
  end.

Definition sextet_of_char (c : byte) : option N := index_of c alphabet 0.

(** A full group: three bytes make one 24-bit word, read as four sextets. *)
Definition word3 (b0 b1 b2 : byte) : N :=
  N.lor (N.shiftl (Byte.to_N b0) 16)
        (N.lor (N.shiftl (Byte.to_N b1) 8) (Byte.to_N b2)).

Definition sextet (w : N) (shift : N) : byte :=
  char_of_sextet (N.land (N.shiftr w shift) 63).

Fixpoint encode (bs : list byte) : list byte :=
  match bs with
  | [] => []
  | [b0] =>
      let w := N.shiftl (Byte.to_N b0) 4 in
      [sextet w 6; sextet w 0; pad; pad]
  | [b0; b1] =>
      let w := N.shiftl (N.lor (N.shiftl (Byte.to_N b0) 8) (Byte.to_N b1)) 2 in
      [sextet w 12; sextet w 6; sextet w 0; pad]
  | b0 :: b1 :: b2 :: bs' =>
      let w := word3 b0 b1 b2 in
      sextet w 18 :: sextet w 12 :: sextet w 6 :: sextet w 0 :: encode bs'
  end.

Definition octet (w : N) (shift : N) : option byte :=
  Byte.of_N (N.land (N.shiftr w shift) 255).

(** Four sextets back to the word they spell. *)
Definition word_of (ss : list N) : N :=
  fold_left (fun w s => N.lor (N.shiftl w 6) s) ss 0.

Definition sextets (cs : list byte) : option (list N) :=
  mapM sextet_of_char cs.

Definition octets (w : N) (shifts : list N) : option (list byte) :=
  mapM (octet w) shifts.

(** Decoding of padded input: groups of four characters, padding only in
    the last group.  Anything else is rejected. *)
Fixpoint decode (cs : list byte) : option (list byte) :=
  match cs with
  | [] => Some []
  | c0 :: c1 :: c2 :: c3 :: cs' =>
      if Byte.eqb c3 pad then
        match cs' with
        | [] =>
            if Byte.eqb c2 pad then
              ss ← sextets [c0; c1];
              octets (N.shiftr (word_of ss) 4) [0]
            else
              ss ← sextets [c0; c1; c2];
              octets (N.shiftr (word_of ss) 2) [8; 0]
        | _ => None
        end
      else
        ss ← sextets [c0; c1; c2; c3];
        grp ← octets (word_of ss) [16; 8; 0];
        rest ← decode cs';
        Some (grp ++ rest)%list
  | _ => None
  end.

Definition urlsafe_b64encode (bs : list byte) : list byte := encode bs.

Definition urlsafe_b64decode (s : string) : option (list byte) :=
  decode (list_byte_of_string s).

End Base64.

(** The check that sextet [n] and its character name each other and that
    the character is not the padding. *)
Definition sextet_ok (n : nat) : bool :=
  match Base64.sextet_of_char (Base64.char_of_sextet (N.of_nat n)) with
  | Some m => N.eqb m (N.of_nat n)
  | None => false
  end && negb (Byte.eqb (Base64.char_of_sextet (N.of_nat n)) Base64.pad).

(** ** The process around the configuration module *)

(** Exceptions.  [NotImplementedError] is what [os.urandom] raises when the
    operating system has no randomness to give.  [ConfigurationError] and
    [CryptoProvisioningError] are the two error kinds the specification
    names; they are here so that statements can speak of them. *)
Inductive exception : Type :=
  | NotImplementedError
  | ConfigurationError
  | CryptoProvisioningError.

(** A value of the content-security-policy dict: a string or a list of
    strings. *)
Inductive csp_value : Type :=
  | CspStr (s : string)
  | CspList (l : list string).

(** The attributes of [class Config], under their names in the source.  The
    specification calls them [secretKey] ([SECRET_KEY]), [databaseLocation]
    ([SQLALCHEMY_DATABASE_URI]), [encryptionKey] ([FERNET_KEY]),
    [contentSecurityPolicy] ([TALISMAN_CSP]), [cookiePolicy]
    ([SESSION_COOKIE_HTTPONLY], [SESSION_COOKIE_SAMESITE]) and
    [rateLimitBackendLocation] ([RATE_LIMIT_STORAGE_URL]). *)
Record Config : Type := mkConfig {
  SECRET_KEY : string;
  SQLALCHEMY_DATABASE_URI : string;
  SQLALCHEMY_TRACK_MODIFICATIONS : bool;
  WTF_CSRF_ENABLED : bool;
  TALISMAN_ENABLED : bool;
  TALISMAN_CSP : gmap string csp_value;
  SESSION_COOKIE_HTTPONLY : bool;
  SESSION_COOKIE_SAMESITE : string;
  FERNET_KEY : string;
  RATE_LIMIT_STORAGE_URL : string
}.

(** A statement of a [.env] file, as python-dotenv's parser reads it: a
    binding [KEY=value] (the value still with its [${NAME}] references) or a
    bare [KEY], or a statement it cannot parse, known by the line it starts
    at.  Comments and blank lines are left out. *)
Inductive statement : Type :=
  | Binding (key : string) (value : option string)
  | Unparsable (line : nat).

(** Levels of the log records the module causes. *)
Inductive level : Type :=
  | DEBUG
  | WARNING.

(** What the module touches of the process it runs in. *)
Record World : Type := mkWorld {
  (** [os.environ] *)
  environ : gmap string string;
  (** the statements of the [.env] file that [load_dotenv()] finds, in file
      order; empty when there is no such file *)
  dotenv : list statement;
  (** the bytes the operating system's entropy source has yet to deliver *)
  entropy : list byte;
  (** the records handed to the logging module so far *)
  log : list (level * string);
  (** the entry of [app.config] in [sys.modules], as the class it defines *)
  sys_modules : option Config
}.

Definition set_environ (e : gmap string string) (w : World) : World :=
  mkWorld e (dotenv w) (entropy w) (log w) (sys_modules w).

Definition set_entropy (t : list byte) (w : World) : World :=
  mkWorld (environ w) (dotenv w) t (log w) (sys_modules w).

Definition set_sys_modules (c : option Config) (w : World) : World :=
  mkWorld (environ w) (dotenv w) (entropy w) (log w) c.

Definition add_log (records : list (level * string)) (w : World) : World :=
  mkWorld (environ w) (dotenv w) (entropy w) (log w ++ records) (sys_modules w).

(** A run either returns a value and the world it leaves, or raises. *)
Inductive outcome (A : Type) : Type :=
  | Returned (a : A) (w : World)
  | Raised (e : exception).
Arguments Returned {A} a w.
Arguments Raised {A} e.

Definition Py (A : Type) : Type := World -> outcome A.

Definition ret {A} (a : A) : Py A := fun w => Returned a w.

Definition bind {A B} (m : Py A) (k : A -> Py B) : Py B :=
  fun w =>
    match m w with
    | Returned a w' => k a w'
    | Raised e => Raised e
    end.

Declare Scope py_scope.
Delimit Scope py_scope with py.
Notation "x <- m ;; k" := (bind m (fun x => k))
  (at level 100, m at next level, right associativity) : py_scope.
Notation "m ;;; k" := (bind m (fun _ => k))
  (at level 100, right associativity) : py_scope.

(** *** Library calls *)

(** [os.urandom(n)] *)
Definition os_urandom (n : nat) : Py (list byte) :=
  fun w =>
    if decide (n ≤ length (entropy w))%nat
    then Returned (take n (entropy w)) (set_entropy (drop n (entropy w)) w)
    else Raised NotImplementedError.

(** [os.getenv(key, default)]: [os.environ.get(key, default)] *)
Definition os_getenv (key dflt : string) : Py string :=
  fun w => Returned (default dflt (environ w !! key)) w.

(** **** python-dotenv *)

(** The bindings of a file, in order, and the lines of the statements that
    could not be parsed. *)
Definition bindings (stmts : list statement) : list (string * option string) :=
  omap (fun st => match st with
                  | Binding k v => Some (k, v)
                  | Unparsable _ => None
                  end) stmts.

Definition unparsable_lines (stmts : list statement) : list nat :=
  omap (fun st => match st with
                  | Binding _ _ => None
                  | Unparsable n => Some n
                  end) stmts.

(** The dict of the file before interpolation: a later binding of a key
    replaces an earlier one; a bare key is bound to [None]. *)
Definition dotenv_values (stmts : list statement) : gmap string (option string) :=
  foldl (fun d kv => <[kv.1 := kv.2]> d) ∅ (bindings stmts).

(** The longest prefix of characters that satisfy [p], and the rest. *)
Fixpoint span (p : ascii -> bool) (s : string) : string * string :=
  match s with
  | EmptyString => (EmptyString, EmptyString)
  | String c s' =>
      if p c
      then let '(pre, rest) := span p s' in (String c pre, rest)
      else (EmptyString, s)
  end.

(** [Variable.resolve] under [override=False]: [os.environ] first, then the
    bindings of the file read so far, then the default of the reference, then
    the empty string.  A bare key read so far gives the empty string. *)
Definition resolve (environ : gmap string string)
    (new_values : gmap string (option string))
    (name : string) (dflt : option string) : string :=
  match environ !! name with
  | Some v => v
  | None =>
      match new_values !! name with
      | Some (Some v) => v
      | Some None => EmptyString
      | None => default EmptyString dflt
      end
  end.

(** A reference at the start of a text: [${NAME}] or [${NAME:-DEFAULT}],
    where NAME has no closing brace and no colon and DEFAULT has no closing
    brace.  Gives the name, the default and the text after the reference. *)
Definition reference (s : string) : option (string * option string * string) :=
  match s with
  | String "$" (String "{" s1) =>
      let '(name, r1) :=
        span (fun c => negb (Ascii.eqb c "}" || Ascii.eqb c ":")) s1 in
      match r1 with
      | String "}" r2 => Some (name, None, r2)
      | String ":" (String "-" r2) =>
          let '(dflt, r3) := span (fun c => negb (Ascii.eqb c "}")) r2 in
          match r3 with
          | String "}" r4 => Some (name, Some dflt, r4)
          | _ => None
          end
      | _ => None
      end
  | _ => None
  end.

(** Interpolation of one value: every reference, from left to right, is
    replaced by what it resolves to; the text between references stays.  The
    first argument bounds the number of steps; each step takes at least one
    character, so the length of the value is enough. *)
Fixpoint interpolate_steps (n : nat) (environ : gmap string string)
    (new_values : gmap string (option string)) (s : string) : string :=
  match n with
  | O => s
  | S n' =>
      match reference s with
      | Some (name, dflt, rest) =>
          resolve environ new_values name dflt
          ++ interpolate_steps n' environ new_values rest
      | None =>
          match s with
          | EmptyString => EmptyString
          | String c s' => String c (interpolate_steps n' environ new_values s')
          end
      end
  end.

Definition interpolate (environ : gmap string string)
    (new_values : gmap string (option string)) (s : string) : string :=
  interpolate_steps (String.length s) environ new_values s.

(** [resolve_variables(values, override=False)]: the bindings in file order,
    each value interpolated against [os.environ] and the bindings before
    it. *)
Definition resolve_variables (environ : gmap string string)
    (values : list (string * option string)) : gmap string (option string) :=
  foldl (fun new_values kv =>
           <[kv.1 := interpolate environ new_values <$> kv.2]> new_values)
        ∅ values.

(** [str.casefold()] on the characters that fold into the ASCII letters of
    the words below: the upper-case ASCII letters, and LATIN SMALL LETTER
    LONG S (the bytes 197, 191), which folds to [s]. *)
Definition ascii_lower (c : ascii) : ascii :=
  let n := N_of_ascii c in
  if (65 <=? n) && (n <=? 90) then ascii_of_N (n + 32) else c.

Fixpoint casefold (s : string) : string :=
  match s with
  | EmptyString => EmptyString
  | String c s' =>
      match s' with
      | String c' s'' =>
          if (N_of_ascii c =? 197) && (N_of_ascii c' =? 191)
          then String "s" (casefold s'')
          else String (ascii_lower c) (casefold s')
      | EmptyString => String (ascii_lower c) EmptyString
      end
  end.

(** [_load_dotenv_disabled()] *)
Definition load_dotenv_disabled (environ : gmap string string) : bool :=
  match environ !! "PYTHON_DOTENV_DISABLED" with
  | None => false
  | Some value =>
      bool_decide (casefold value ∈ ["1"; "true"; "t"; "yes"; "y"])
  end.

Definition disabled_notice : string :=
  "python-dotenv: .env loading disabled by PYTHON_DOTENV_DISABLED environment variable".

Definition parse_warning (line : nat) : string :=
  "python-dotenv could not parse statement starting at line " ++ pretty line.

(** The records [load_dotenv()] hands to the logging module: the notice that
    loading is disabled, or one warning per statement that cannot be
    parsed. *)
Definition load_dotenv_records (w : World) : list (level * string) :=
  if load_dotenv_disabled (environ w)
  then [(DEBUG, disabled_notice)]
  else (fun n => (WARNING, parse_warning n)) <$> unparsable_lines (dotenv w).

(** The variables [load_dotenv()] offers to [os.environ]: the bindings of the
    file that have a value, interpolated; none when loading is disabled. *)
Definition load_dotenv_variables (w : World) : gmap string string :=
  if load_dotenv_disabled (environ w)
  then ∅
  else omap id (resolve_variables (environ w) (bindings (dotenv w))).

(** [load_dotenv()] with its defaults ([override=False],
    [interpolate=True]).  Unless loading is disabled, every key the file
    binds to a value and that [os.environ] does not have yet is set there;
    keys already set keep their value.  Returns whether the file had any
    binding. *)
Definition load_dotenv : Py bool :=
  fun w =>
    let w1 := add_log (load_dotenv_records w) w in
    if load_dotenv_disabled (environ w)
    then Returned false w1
    else
      let d := resolve_variables (environ w) (bindings (dotenv w)) in
      Returned (negb (bool_decide (d = ∅)))
               (set_environ (environ w ∪ omap id d) w1).

(** [Fernet.generate_key()]: [base64.urlsafe_b64encode(os.urandom(32))] *)
Definition Fernet_generate_key : Py (list byte) :=
  (key <- os_urandom 32 ;; ret (Base64.urlsafe_b64encode key))%py.

(** [bytes.decode()] of ASCII bytes *)
Definition bytes_decode (bs : list byte) : string := string_of_list_byte bs.

(** *** [app/config.py] *)

Definition TALISMAN_CSP_value : gmap string csp_value :=
  <["script-src" := CspList ["'self'"; "https://cdn.jsdelivr.net"]]>
  (<["style-src" := CspList ["'self'"; "https://cdn.jsdelivr.net"]]>
  (<["default-src" := CspStr "'self'"]> ∅)).

(** The body of [class Config], statement by statement.  The default passed
    to [os.getenv] is an argument, so it is computed before the look-up:
    the two draws of randomness happen whether or not the variable is set. *)
Definition class_Config : Py Config :=
  (rnd <- os_urandom 24 ;;
   secret_key <- os_getenv "SECRET_KEY" (Hex.hex rnd) ;;
   database_uri <- os_getenv "DATABASE_URL" "sqlite:///inventory.db" ;;
   key <- Fernet_generate_key ;;
   fernet_key <- os_getenv "FERNET_KEY" (bytes_decode key) ;;
   storage_url <- os_getenv "REDIS_URL" "redis://redis:6379/0" ;;
   ret {| SECRET_KEY := secret_key;
          SQLALCHEMY_DATABASE_URI := database_uri;
          SQLALCHEMY_TRACK_MODIFICATIONS := false;
          WTF_CSRF_ENABLED := true;
          TALISMAN_ENABLED := true;
          TALISMAN_CSP := TALISMAN_CSP_value;
          SESSION_COOKIE_HTTPONLY := true;
          SESSION_COOKIE_SAMESITE := "Lax";
          FERNET_KEY := fernet_key;
          RATE_LIMIT_STORAGE_URL := storage_url |})%py.

(** The module body of [app/config.py]: [load_dotenv()], then the class.
    This is the operation the specification calls [loadConfig()]. *)
Definition loadConfig : Py Config :=
  (load_dotenv ;;; class_Config)%py.

(** [os.environ] as the class body finds it, after [load_dotenv()]. *)
Definition merged_environ (w : World) : gmap string string :=
  environ w ∪ load_dotenv_variables w.

(** The class the module body builds from the environment and the two draws
    of randomness. *)
Definition built_Config (env : gmap string string) (rnd key : list byte) : Config :=
  {| SECRET_KEY := default (Hex.hex rnd) (env !! "SECRET_KEY");
     SQLALCHEMY_DATABASE_URI := default "sqlite:///inventory.db" (env !! "DATABASE_URL");
     SQLALCHEMY_TRACK_MODIFICATIONS := false;
     WTF_CSRF_ENABLED := true;
     TALISMAN_ENABLED := true;
     TALISMAN_CSP := TALISMAN_CSP_value;
     SESSION_COOKIE_HTTPONLY := true;
     SESSION_COOKIE_SAMESITE := "Lax";
     FERNET_KEY := default (bytes_decode (Base64.urlsafe_b64encode key)) (env !! "FERNET_KEY");
     RATE_LIMIT_STORAGE_URL := default "redis://redis:6379/0" (env !! "REDIS_URL") |}.

(** [from .config import Config]: the module body runs on the first import
    only; later imports find the module in [sys.modules]. *)
Definition import_Config : Py Config :=
  fun w =>
    match sys_modules w with
    | Some c => Returned c w
    | None =>
        match loadConfig w with
        | Returned c w' => Returned c (set_sys_modules (Some c) w')
        | Raised e => Raised e
        end
    end.

(** *** [app/__init__.py] *)

(** A blueprint, known here by the module it is imported from and its name
    there. *)
Record Blueprint : Type := mkBlueprint {
  bp_module : string;
  bp_name : string
}.

#[global] Instance Blueprint_eq_dec : EqDecision Blueprint.
Proof. solve_decision. Defined.

Definition auth_bp := mkBlueprint ".auth.routes" "auth_bp".
Definition auth_api := mkBlueprint ".api.auth" "auth_api".
Definition clients_api := mkBlueprint ".api.clients" "clients_api".
Definition networks_api := mkBlueprint ".api.networks" "networks_api".
Definition projects_api := mkBlueprint ".api.projects" "projects_api".
Definition users_api := mkBlueprint ".api.users" "users_api".

(** The application object, as far as [create_app] builds it. *)
Record Flask : Type := mkFlask {
  (** [app.config], on the attributes of [Config] *)
  config : option Config;
  (** the extensions whose [init_app] ran, in order *)
  extensions : list string;
  (** the registered blueprints with their [url_prefix], in order *)
  blueprints : list (Blueprint * string);
  (** whether [db.create_all()] ran *)
  tables_created : bool
}.

Definition Flask_new : Flask := mkFlask None [] [] false.

Definition from_object (c : Config) (app : Flask) : Flask :=
  mkFlask (Some c) (extensions app) (blueprints app) (tables_created app).

Definition init_app (ext : string) (app : Flask) : Flask :=
  mkFlask (config app) (extensions app ++ [ext]) (blueprints app) (tables_created app).

Definition register_blueprint (bp : Blueprint) (url_prefix : string) (app : Flask) : Flask :=
  mkFlask (config app) (extensions app) (blueprints app ++ [(bp, url_prefix)])
          (tables_created app).

Definition create_all (app : Flask) : Flask :=
  mkFlask (config app) (extensions app) (blueprints app) true.

(** [create_app()], as a caller reaches it: the package is imported, which
    binds [Config] by the import at its top (a look-up in [sys.modules] once
    the configuration module has run), and the function is called.  The
    calls into Flask and its extensions are recorded in the application
    object; what the libraries do inside them is not part of this model. *)
Definition create_app : Py Flask :=
  (Config <- import_Config ;;
   let app := Flask_new in
   let app := from_object Config app in
   let app := init_app "db" app in
   let app := init_app "login_manager" app in
   let app := init_app "csrf" app in
   let app := init_app "talisman" app in
   let app := init_app "limiter" app in
   let app := register_blueprint auth_bp "/auth" app in
   let app := register_blueprint auth_api "/api/auth" app in
   let app := register_blueprint clients_api "/api/clients" app in
   let app := register_blueprint networks_api "/api/networks" app in
   let app := register_blueprint projects_api "/api/projects" app in
   let app := register_blueprint users_api "/api/users" app in
   let app := create_all app in
   ret app)%py.

(** *** The life of a process after start-up *)

(** What may happen any number of times, in any order, once the process
    runs: the configuration module is imported again, an application is
    built, or some code changes [os.environ]. *)
Inductive event : Type :=
  | Import
  | CreateApp
  | Putenv (key value : string)
  | Unsetenv (key : string).

(** One event; it yields the configuration it read, if it read one. *)
Definition step (ev : event) : Py (option Config) :=
  match ev with
  | Import => (c <- import_Config ;; ret (Some c))%py
  | CreateApp => (app <- create_app ;; ret (config app))%py
  | Putenv k v => fun w => Returned None (set_environ (<[k := v]> (environ w)) w)
  | Unsetenv k => fun w => Returned None (set_environ (delete k (environ w)) w)
  end.

(** A run of events, with every configuration read on the way. *)
Fixpoint run (evs : list event) : Py (list Config) :=
  match evs with
  | [] => ret []
  | ev :: evs' =>
      (o <- step ev ;;
       cs <- run evs' ;;
       ret (match o with Some c => c :: cs | None => cs end))%py
  end.

(** The events that read the configuration. *)
Definition reads (ev : event) : bool :=
  match ev with
  | Import | CreateApp => true
  | Putenv _ _ | Unsetenv _ => false
  end.

(** *** Sample processes *)

(** A fresh process: nothing set, no [.env] file. *)
Definition bare_process : World :=
  mkWorld ∅ [] (repeat x00 56) [] None.

(** The scenario of the specification: [SECRET_KEY=abc123], nothing else. *)
Definition scenario_process : World :=
  mkWorld {["SECRET_KEY" := "abc123"]} [] (repeat x2a 56) [] None.

(** Nothing set in the environment, but a [.env] file with two lines. *)
Definition dotenv_process : World :=
  mkWorld ∅ [Binding "DATABASE_URL" (Some "postgresql://db/prod");
             Binding "DEBUG" (Some "1")]
          (repeat x00 56) [] None.

(** A second start of [bare_process], with other bytes from the system. *)
Definition restarted_process : World :=
  mkWorld ∅ [] (repeat xff 56) [] None.

(** The blueprint registrations of [create_app], in order. *)
Definition mounted : list (Blueprint * string) :=
  [ (auth_bp, "/auth");
    (auth_api, "/api/auth");
    (clients_api, "/api/clients");
    (networks_api, "/api/networks");
    (projects_api, "/api/projects");
    (users_api, "/api/users") ].

(** *** Alphabets of the generated secrets *)

(** A lower-case hexadecimal digit, [0-9a-f]. *)
Definition is_lower_hex (c : ascii) : bool :=
  let n := N_of_ascii c in
  ((48 <=? n) && (n <=? 57)) || ((97 <=? n) && (n <=? 102)).

Fixpoint string_forallb (p : ascii -> bool) (s : string) : bool :=
  match s with
  | EmptyString => true
  | String c s' => p c && string_forallb p s'
  end.

(** A character of URL-safe base64 text: one of the alphabet, or the
    padding. *)
Definition is_urlsafe (c : byte) : bool :=
  existsb (Byte.eqb c) Base64.alphabet || Byte.eqb c Base64.pad.

(** A process whose environment supplies both secrets, on a system with no
    randomness left to give. *)
Definition provisioned_process : World :=
  mkWorld (<["SECRET_KEY" := "abc123"]>
             {["FERNET_KEY" := "AAAAAAAAAAAAAAAAAAAAAAAAAAAAAAAAAAAAAAAAAAA="]})
          [] [] [] None.

(** A process with a [.env] file that binds a variable twice and one that
    the environment has already. *)
Definition layered_process : World :=
  mkWorld {["REDIS_URL" := "redis://cache:6379/1"]}
          [Binding "SECRET_KEY" (Some "first");
           Binding "REDIS_URL" (Some "redis://file:6379/9");
           Binding "SECRET_KEY" (Some "second")]
          (repeat x07 56) [] None.

(** The variables the class body reads, each with the attribute it
    fills. *)
Definition reads_from : list (string * (Config -> string)) :=
  [ ("SECRET_KEY", SECRET_KEY);
    ("DATABASE_URL", SQLALCHEMY_DATABASE_URI);
    ("FERNET_KEY", FERNET_KEY);
    ("REDIS_URL", RATE_LIMIT_STORAGE_URL) ].

(** A value without a dollar sign has no reference to resolve. *)
Definition plain (s : string) : bool :=
  string_forallb (fun c => negb (Ascii.eqb c "$")) s.

(** The route-handler group of a mounted blueprint, named by the last
    segment of its URL prefix: [/auth] and [/api/auth] both belong to
    [auth]. *)
Fixpoint last_segment_from (acc s : string) : string :=
  match s with
  | EmptyString => acc
  | String c s' =>
      if Ascii.eqb c "/" then last_segment_from EmptyString s'
      else last_segment_from (acc ++ String c EmptyString) s'
  end.

Definition route_group (mount : Blueprint * string) : string :=
  last_segment_from EmptyString mount.2.

(** A system whose entropy source gives the same byte over and over, at the
    first of two starts; [bare_process] is the second. *)
Definition stuck_process : World :=
  mkWorld ∅ [] (repeat x00 112) [] None.

(** [HOST] set in the environment, and a [.env] file that refers to it and
    has a line the parser cannot read. *)
Definition interpolating_process : World :=
  mkWorld {["HOST" := "envhost"]}
          [Binding "DATABASE_URL" (Some "postgresql://${HOST}/prod");
           Unparsable 2;
           Binding "REDIS_URL" (Some "redis://cache:6379/1")]
          (repeat x31 56) [] None.

(** * Properties *)

(** ** The codecs *)

Lemma unhex_hex_byte (b : byte) :
  Hex.unhex_byte (Hex.digit (N.shiftr (Byte.to_N b) 4))
                 (Hex.digit (N.land (Byte.to_N b) 15)) = Some b.
Proof. destruct b; reflexivity. Qed.

Lemma fromhex_hex (bs : list byte) : Hex.fromhex (Hex.hex bs) = Some bs.
Proof.
  induction bs as [|b bs IH]; [reflexivity|].
  cbn [Hex.hex Hex.fromhex].
  rewrite unhex_hex_byte, IH. reflexivity.
Qed.

Lemma hex_inj (bs bs' : list byte) : Hex.hex bs = Hex.hex bs' -> bs = bs'.
Proof.
  intros E. apply (f_equal Hex.fromhex) in E.
  rewrite !fromhex_hex in E. congruence.
Qed.

Lemma length_hex (bs : list byte) :
  String.length (Hex.hex bs) = (2 * length bs)%nat.
Proof. induction bs as [|b bs IH]; cbn [Hex.hex String.length length]; lia. Qed.

(** Shifts and masks as arithmetic. *)

Lemma lor_shiftl_add (w a k : N) :
  a < 2 ^ k -> N.lor (N.shiftl w k) a = w * 2 ^ k + a.
Proof.
  intros Ha.
  assert (Hdisj : N.land (N.shiftl w k) a = 0).
  { apply N.bits_inj_0. intros n. rewrite N.land_spec.
    destruct (N.lt_ge_cases n k) as [Hlt|Hge].
    - rewrite N.shiftl_spec_low by exact Hlt. reflexivity.
    - rewrite <- (N.mod_small a (2 ^ k)) by exact Ha.
      rewrite N.mod_pow2_bits_high by exact Hge.
      apply andb_false_r. }
  rewrite <- N.lxor_lor by exact Hdisj.
  rewrite <- N.add_nocarry_lxor by exact Hdisj.
  rewrite N.shiftl_mul_pow2. reflexivity.
Qed.

Lemma mask6 (w k : N) : N.land (N.shiftr w k) 63 = (w / 2 ^ k) mod 64.
Proof.
  change 63 with (N.ones 6).
  rewrite N.land_ones, N.shiftr_div_pow2. reflexivity.
Qed.

Lemma mask8 (w k : N) : N.land (N.shiftr w k) 255 = (w / 2 ^ k) mod 256.
Proof.
  change 255 with (N.ones 8).
  rewrite N.land_ones, N.shiftr_div_pow2. reflexivity.
Qed.

Lemma to_N_lt (b : byte) : Byte.to_N b < 256.
Proof. pose proof (Byte.to_N_bounded b). lia. Qed.

(** The alphabet is a bijection between sextets and its 64 characters, none
    of which is the padding character. *)

Lemma sextet_table : forallb sextet_ok (seq 0 64) = true.
Proof. vm_compute. reflexivity. Qed.

Lemma char_of_sextet_spec (s : N) :
  s < 64 ->
  Base64.sextet_of_char (Base64.char_of_sextet s) = Some s
  /\ Byte.eqb (Base64.char_of_sextet s) Base64.pad = false.
Proof.
  intros Hs.
  pose proof sextet_table as H.
  rewrite List.forallb_forall in H.
  specialize (H (N.to_nat s)).
  unfold sextet_ok in H. rewrite N2Nat.id in H.
  assert (Hin : List.In (N.to_nat s) (seq 0 64)) by (apply in_seq; lia).
  apply H in Hin. apply andb_prop in Hin as [H1 H2].
  split.
  - destruct (Base64.sextet_of_char _) as [m|]; [|discriminate].
    apply N.eqb_eq in H1. congruence.
  - destruct (Byte.eqb _ _); [discriminate|reflexivity].
Qed.

Lemma sextet_of_sextet (w k : N) :
  Base64.sextet_of_char (Base64.sextet w k) = Some ((w / 2 ^ k) mod 64).
Proof.
  unfold Base64.sextet. rewrite mask6.
  apply char_of_sextet_spec. apply N.mod_lt. discriminate.
Qed.

Lemma sextet_not_pad (w k : N) :
  Byte.eqb (Base64.sextet w k) Base64.pad = false.
Proof.
  unfold Base64.sextet. rewrite mask6.
  apply char_of_sextet_spec. apply N.mod_lt. discriminate.
Qed.

(** One group of the encoder's output read back by the decoder. *)

Lemma word_of_2 (s0 s1 : N) :
  s0 < 64 -> s1 < 64 -> Base64.word_of [s0; s1] = s0 * 64 + s1.
Proof.
  intros H0 H1. unfold Base64.word_of. cbn [fold_left].
  change (N.shiftl 0 6) with 0. rewrite N.lor_0_l.
  rewrite (lor_shiftl_add _ s1 6) by exact H1. reflexivity.
Qed.

Lemma word_of_3 (s0 s1 s2 : N) :
  s0 < 64 -> s1 < 64 -> s2 < 64 ->
  Base64.word_of [s0; s1; s2] = (s0 * 64 + s1) * 64 + s2.
Proof.
  intros H0 H1 H2. unfold Base64.word_of. cbn [fold_left].
  change (N.shiftl 0 6) with 0. rewrite N.lor_0_l.
  rewrite (lor_shiftl_add _ s1 6) by exact H1.
  rewrite (lor_shiftl_add _ s2 6) by exact H2. reflexivity.
Qed.

Lemma word_of_4 (s0 s1 s2 s3 : N) :
  s0 < 64 -> s1 < 64 -> s2 < 64 -> s3 < 64 ->
  Base64.word_of [s0; s1; s2; s3] = ((s0 * 64 + s1) * 64 + s2) * 64 + s3.
Proof.
  intros H0 H1 H2 H3. unfold Base64.word_of. cbn [fold_left].
  change (N.shiftl 0 6) with 0. rewrite N.lor_0_l.
  rewrite (lor_shiftl_add _ s1 6) by exact H1.
  rewrite (lor_shiftl_add _ s2 6) by exact H2.
  rewrite (lor_shiftl_add _ s3 6) by exact H3. reflexivity.
Qed.

Lemma word3_val (b0 b1 b2 : byte) :
  Base64.word3 b0 b1 b2
  = Byte.to_N b0 * 65536 + Byte.to_N b1 * 256 + Byte.to_N b2.
Proof.
  unfold Base64.word3.
  pose proof (to_N_lt b0). pose proof (to_N_lt b1). pose proof (to_N_lt b2).
  rewrite (lor_shiftl_add _ (Byte.to_N b2) 8) by assumption.
  change (2 ^ 8) with 256.
  rewrite (lor_shiftl_add _ _ 16) by (change (2 ^ 16) with 65536; lia).
  change (2 ^ 16) with 65536. lia.
Qed.

Lemma octet_val (w k : N) (b : byte) :
  (w / 2 ^ k) mod 256 = Byte.to_N b -> Base64.octet w k = Some b.
Proof.
  intros E. unfold Base64.octet. rewrite mask8, E. apply Byte.of_to_N.
Qed.

Lemma decode_group1 (b0 : byte) :
  Base64.decode (Base64.encode [b0]) = Some [b0].
Proof.
  cbn [Base64.encode Base64.decode].
  change (Byte.eqb Base64.pad Base64.pad) with true. cbn match.
  unfold Base64.sextets, Base64.octets. cbn [mapM].
  rewrite !sextet_of_sextet. cbn [mbind option_bind mret option_ret fmap option_fmap option_map].
  pose proof (to_N_lt b0) as Hb.
  rewrite N.shiftl_mul_pow2.
  rewrite word_of_2 by (apply N.mod_lt; discriminate).
  rewrite N.shiftr_div_pow2.
  erewrite octet_val; [reflexivity|].
  change (2 ^ 0) with 1. change (2 ^ 4) with 16. change (2 ^ 6) with 64.
  euclid.
Qed.

Lemma decode_group2 (b0 b1 : byte) :
  Base64.decode (Base64.encode [b0; b1]) = Some [b0; b1].
Proof.
  cbn [Base64.encode Base64.decode].
  change (Byte.eqb Base64.pad Base64.pad) with true. cbn match.
  rewrite sextet_not_pad.
  unfold Base64.sextets, Base64.octets. cbn [mapM].
  rewrite !sextet_of_sextet. cbn [mbind option_bind mret option_ret fmap option_fmap option_map].
  pose proof (to_N_lt b0) as Hb0. pose proof (to_N_lt b1) as Hb1.
  rewrite (lor_shiftl_add _ (Byte.to_N b1) 8) by exact Hb1.
  rewrite N.shiftl_mul_pow2.
  rewrite word_of_3 by (apply N.mod_lt; discriminate).
  rewrite N.shiftr_div_pow2.
  change (2 ^ 0) with 1. change (2 ^ 2) with 4. change (2 ^ 6) with 64.
  change (2 ^ 8) with 256. change (2 ^ 12) with 4096.
  erewrite (octet_val _ 8 b0); [erewrite (octet_val _ 0 b1); [reflexivity|]|].
  - change (2 ^ 0) with 1. euclid.
  - change (2 ^ 8) with 256. euclid.
Qed.

Lemma decode_group3 (b0 b1 b2 : byte) (cs : list byte) :
  Base64.decode (Base64.encode (b0 :: b1 :: b2 :: []) ++ cs)
  = rest ← Base64.decode cs; Some (b0 :: b1 :: b2 :: rest).
Proof.
  cbn [Base64.encode app Base64.decode].
  rewrite sextet_not_pad.
  unfold Base64.sextets, Base64.octets. cbn [mapM].
  rewrite !sextet_of_sextet. cbn [mbind option_bind mret option_ret fmap option_fmap option_map].
  pose proof (to_N_lt b0) as Hb0. pose proof (to_N_lt b1) as Hb1.
  pose proof (to_N_lt b2) as Hb2.
  rewrite word_of_4 by (apply N.mod_lt; discriminate).
  rewrite word3_val.
  change (2 ^ 0) with 1. change (2 ^ 6) with 64.
  change (2 ^ 12) with 4096. change (2 ^ 18) with 262144.
  erewrite (octet_val _ 16 b0);
    [erewrite (octet_val _ 8 b1); [erewrite (octet_val _ 0 b2)|]|].
  - destruct (Base64.decode cs); reflexivity.
  - change (2 ^ 0) with 1. euclid.
  - change (2 ^ 8) with 256. euclid.
  - change (2 ^ 16) with 65536. euclid.
Qed.

(** Decoding undoes encoding, for every byte string. *)
Lemma decode_encode (bs : list byte) :
  Base64.decode (Base64.encode bs) = Some bs.
Proof.
  induction bs as [|b0|b0 b1|b0 b1 b2 bs IH] using list_ind3.
  - reflexivity.
  - apply decode_group1.
  - apply decode_group2.
  - change (Base64.encode (b0 :: b1 :: b2 :: bs))
      with (Base64.encode [b0; b1; b2] ++ Base64.encode bs)%list.
    rewrite decode_group3, IH. reflexivity.
Qed.

Lemma urlsafe_b64decode_encode (bs : list byte) :
  Base64.urlsafe_b64decode (bytes_decode (Base64.urlsafe_b64encode bs)) = Some bs.
Proof.
  unfold Base64.urlsafe_b64decode, bytes_decode, Base64.urlsafe_b64encode.
  rewrite list_byte_of_string_of_list_byte. apply decode_encode.
Qed.

(** ** Running the module body *)

Lemma os_urandom_returns (n : nat) (w : World) :
  (n <= length (entropy w))%nat ->
  os_urandom n w
  = Returned (take n (entropy w)) (set_entropy (drop n (entropy w)) w).
Proof. intros H. unfold os_urandom. destruct (decide _); [reflexivity|lia]. Qed.

Lemma os_urandom_raises (n : nat) (w : World) :
  (length (entropy w) < n)%nat -> os_urandom n w = Raised NotImplementedError.
Proof. intros H. unfold os_urandom. destruct (decide _); [lia|reflexivity]. Qed.

Lemma class_Config_returns (w : World) :
  (56 <= length (entropy w))%nat ->
  class_Config w
  = Returned (built_Config (environ w) (take 24 (entropy w))
                           (take 32 (drop 24 (entropy w))))
             (set_entropy (drop 56 (entropy w)) w).
Proof.
  intros H. unfold class_Config, Fernet_generate_key, bind at 1.
  rewrite os_urandom_returns by lia.
  unfold bind, os_getenv, ret. cbn [environ entropy set_entropy].
  rewrite os_urandom_returns by (cbn [entropy set_entropy]; rewrite length_drop; lia).
  cbn [environ entropy set_entropy dotenv log sys_modules].
  rewrite drop_drop. reflexivity.
Qed.

Lemma load_dotenv_returns (w : World) :
  exists b,
    load_dotenv w
    = Returned b (mkWorld (merged_environ w) (dotenv w) (entropy w)
                          (log w ++ load_dotenv_records w)%list (sys_modules w)).
Proof.
  unfold load_dotenv, merged_environ, load_dotenv_variables.
  destruct (load_dotenv_disabled (environ w)).
  - exists false. unfold add_log. rewrite (right_id_L ∅ (∪)). reflexivity.
  - eexists. reflexivity.
Qed.

Lemma loadConfig_returns (w : World) :
  (56 <= length (entropy w))%nat ->
  loadConfig w
  = Returned (built_Config (merged_environ w) (take 24 (entropy w))
                           (take 32 (drop 24 (entropy w))))
             (mkWorld (merged_environ w) (dotenv w) (drop 56 (entropy w))
                      (log w ++ load_dotenv_records w)%list (sys_modules w)).
Proof.
  intros H. unfold loadConfig, bind.
  destruct (load_dotenv_returns w) as [b ->].
  rewrite class_Config_returns by exact H. reflexivity.
Qed.

Lemma loadConfig_raises (w : World) :
  (length (entropy w) < 56)%nat -> loadConfig w = Raised NotImplementedError.
Proof.
  intros H. unfold loadConfig, bind.
  destruct (load_dotenv_returns w) as [b ->].
  unfold class_Config, bind.
  destruct (decide (24 <= length (entropy w))%nat) as [H24|H24].
  - rewrite os_urandom_returns by (cbn [entropy]; lia).
    unfold os_getenv, Fernet_generate_key, bind.
    rewrite os_urandom_raises; [reflexivity|].
    cbn [entropy set_entropy]. rewrite length_drop. lia.
  - rewrite os_urandom_raises by (cbn [entropy]; lia).
    reflexivity.
Qed.

(** What the file does not bind, interpolation does not bind either. *)
Lemma foldl_insert_None {A B : Type} (f : gmap string B -> string * A -> B)
    (l : list (string * A)) (acc : gmap string B) (k : string) :
  foldl (fun d kv => <[kv.1 := f d kv]> d) acc l !! k = None
  <-> acc !! k = None /\ k ∉ l.*1.
Proof.
  revert acc. induction l as [|[k' v] l IH]; intros acc; cbn [foldl fmap list_fmap].
  - split; [intros H; split; [exact H | apply not_elem_of_nil] | intros [H _]; exact H].
  - rewrite IH, not_elem_of_cons. cbn [fst snd].
    rewrite lookup_insert_None.
    split.
    + intros [[Ha Hne] Hl]. split; [exact Ha|].
      split; [intros E; apply Hne; symmetry; exact E | exact Hl].
    + intros [Ha [Hne Hl]]. split; [|exact Hl].
      split; [exact Ha | intros E; apply Hne; symmetry; exact E].
Qed.

Lemma resolve_variables_None (environ : gmap string string)
    (stmts : list statement) (k : string) :
  dotenv_values stmts !! k = None ->
  resolve_variables environ (bindings stmts) !! k = None.
Proof.
  unfold dotenv_values, resolve_variables.
  rewrite (foldl_insert_None (fun _ kv => kv.2)).
  rewrite (foldl_insert_None
             (fun d kv => interpolate environ d <$> kv.2)).
  tauto.
Qed.

Lemma merged_set (w : World) (k v : string) :
  environ w !! k = Some v -> merged_environ w !! k = Some v.
Proof. intros H. apply lookup_union_Some_l. exact H. Qed.

Lemma merged_unset (w : World) (k : string) :
  environ w !! k = None ->
  dotenv_values (dotenv w) !! k = None ->
  merged_environ w !! k = None.
Proof.
  intros He Hd. unfold merged_environ, load_dotenv_variables.
  apply lookup_union_None. split; [exact He|].
  destruct (load_dotenv_disabled (environ w)); [apply lookup_empty|].
  rewrite lookup_omap, (resolve_variables_None _ _ _ Hd). reflexivity.
Qed.


Example hex_ex : Hex.hex [x00; x1f; xab; xff] = "001fabff".
Proof. reflexivity. Qed.

Example fromhex_ex : Hex.fromhex "001fabff" = Some [x00; x1f; xab; xff].
Proof. reflexivity. Qed.

Example b64_ex1 :
  string_of_list_byte (Base64.urlsafe_b64encode (list_byte_of_string "Man")) = "TWFu".
Proof. reflexivity. Qed.

Example b64_ex2 :
  string_of_list_byte (Base64.urlsafe_b64encode (list_byte_of_string "Ma")) = "TWE=".
Proof. reflexivity. Qed.

Example b64_ex3 :
  string_of_list_byte (Base64.urlsafe_b64encode [xfb; xff; xfe; x4d]) = "-__-TQ==".
Proof. reflexivity. Qed.

Example b64_ex4 :
  Base64.urlsafe_b64decode "-__-TQ==" = Some [xfb; xff; xfe; x4d].
Proof. reflexivity. Qed.

Example dotenv_values_last_wins :
  dotenv_values [Binding "A" (Some "1"); Unparsable 2; Binding "B" None;
                 Binding "A" (Some "3")] !! "A"
  = Some (Some "3").
Proof. vm_compute. reflexivity. Qed.

(** References are resolved against [os.environ] first, then against the
    bindings above them in the file, then by their default. *)
Example interpolate_ex :
  omap id (resolve_variables {["HOST" := "envhost"]}
             [("PORT", Some "5432"); ("HOST", Some "filehost"); ("BARE", None);
              ("URL", Some "postgresql://${HOST}:${PORT}/${NAME:-prod}${BARE}");
              ("ODD", Some "${A:b} ${unclosed")])
  = {[ "PORT" := "5432"; "HOST" := "filehost";
       "URL" := "postgresql://envhost:5432/prod";
       "ODD" := "${A:b} ${unclosed" ]}.
Proof. vm_compute. reflexivity. Qed.

Example load_dotenv_disabled_ex :
  load_dotenv_disabled {["PYTHON_DOTENV_DISABLED" := "True"]} = true
  /\ load_dotenv_disabled {["PYTHON_DOTENV_DISABLED" := "YES"]} = true
  /\ load_dotenv_disabled {["PYTHON_DOTENV_DISABLED" := "0"]} = false
  /\ load_dotenv_disabled {["PYTHON_DOTENV_DISABLED" := "on"]} = false
  /\ load_dotenv_disabled ∅ = false.
Proof. vm_compute. repeat split. Qed.

Example parse_warning_ex :
  parse_warning 12 = "python-dotenv could not parse statement starting at line 12".
Proof. vm_compute. reflexivity. Qed.

(** The scenario of the specification: [SECRET_KEY=abc123] and no
    [DATABASE_URL]. *)
Example scenario :
  exists cfg w',
    loadConfig scenario_process = Returned cfg w'
    /\ SECRET_KEY cfg = "abc123"
    /\ SQLALCHEMY_DATABASE_URI cfg = "sqlite:///inventory.db"
    /\ FERNET_KEY cfg = "KioqKioqKioqKioqKioqKioqKioqKioqKioqKioqKio="
    /\ RATE_LIMIT_STORAGE_URL cfg = "redis://redis:6379/0"
    /\ entropy w' = [].
Proof.
  rewrite loadConfig_returns by (vm_compute; lia).
  eexists _, _. split; [reflexivity|]. vm_compute. repeat split.
Qed.

(** The defaults are computed even when they are not used: with both secrets
    set and no randomness to draw, the class body raises. *)
Example secrets_set_no_entropy :
  loadConfig (mkWorld (<["SECRET_KEY" := "abc123"]>
                         {["FERNET_KEY" := "AAAAAAAAAAAAAAAAAAAAAAAAAAAAAAAAAAAAAAAAAAA="]})
                      [] [] [] None)
  = Raised NotImplementedError.
Proof. apply loadConfig_raises. cbn. lia. Qed.

(** A file with a reference and a line that cannot be parsed: the reference
    is resolved from [os.environ], and the warning names the line only. *)
Example loadConfig_interpolating :
  exists cfg w',
    loadConfig interpolating_process = Returned cfg w'
    /\ SQLALCHEMY_DATABASE_URI cfg = "postgresql://envhost/prod"
    /\ RATE_LIMIT_STORAGE_URL cfg = "redis://cache:6379/1"
    /\ environ w' !! "DATABASE_URL" = Some "postgresql://envhost/prod"
    /\ log w'
       = [(WARNING, "python-dotenv could not parse statement starting at line 2")].
Proof.
  rewrite loadConfig_returns by (vm_compute; lia).
  eexists _, _. split; [reflexivity|]. vm_compute. repeat split.
Qed.

(** With loading switched off the file is not read at all. *)
Example loadConfig_disabled :
  exists cfg w',
    loadConfig (set_environ {["PYTHON_DOTENV_DISABLED" := "True"]}
                            interpolating_process)
    = Returned cfg w'
    /\ SQLALCHEMY_DATABASE_URI cfg = "sqlite:///inventory.db"
    /\ environ w' = {["PYTHON_DOTENV_DISABLED" := "True"]}
    /\ log w' = [(DEBUG, disabled_notice)].
Proof.
  rewrite loadConfig_returns by (vm_compute; lia).
  eexists _, _. split; [reflexivity|]. vm_compute. repeat split.
Qed.

(** ** Environment values are taken verbatim *)

(** C1. Each of the four environment variables the class reads, when it is
    set in the process environment, appears as the very same string in its
    attribute of the configuration that [loadConfig()] returns:
    [SECRET_KEY] in [SECRET_KEY], [DATABASE_URL] in
    [SQLALCHEMY_DATABASE_URI], [FERNET_KEY] in [FERNET_KEY] and [REDIS_URL]
    in [RATE_LIMIT_STORAGE_URL].  A [.env] file cannot change this, since
    [load_dotenv()] leaves variables that are set alone.  The class body
    draws its 56 bytes of randomness in every case, so the entropy source
    has to deliver them. *)
Theorem C1_set_variable_verbatim (w : World) :
  (56 <= length (entropy w))%nat ->
  exists cfg w',
    loadConfig w = Returned cfg w'
    /\ (forall v, environ w !! "SECRET_KEY" = Some v -> SECRET_KEY cfg = v)
    /\ (forall v, environ w !! "DATABASE_URL" = Some v ->
                  SQLALCHEMY_DATABASE_URI cfg = v)
    /\ (forall v, environ w !! "FERNET_KEY" = Some v -> FERNET_KEY cfg = v)
    /\ (forall v, environ w !! "REDIS_URL" = Some v ->
                  RATE_LIMIT_STORAGE_URL cfg = v).
Proof.
  intros Hent.
  rewrite loadConfig_returns by exact Hent.
  eexists _, _. split; [reflexivity|].
  assert (Hm : forall k v, environ w !! k = Some v ->
                           merged_environ w !! k = Some v)
    by (intros k v Hk; apply lookup_union_Some_l; exact Hk).
  cbn [built_Config SECRET_KEY SQLALCHEMY_DATABASE_URI FERNET_KEY
       RATE_LIMIT_STORAGE_URL].
  repeat split; intros v Hv; rewrite (Hm _ _ Hv); reflexivity.
Qed.

Lemma C1_set_variable_verbatim_witness :
  (56 <= length (entropy scenario_process))%nat
  /\ environ scenario_process !! "SECRET_KEY" = Some "abc123"
  /\ exists cfg w',
       loadConfig scenario_process = Returned cfg w'
       /\ SECRET_KEY cfg = "abc123".
Proof.
  split; [vm_compute; lia|]. split; [reflexivity|].
  destruct (C1_set_variable_verbatim scenario_process)
    as (cfg & w' & E & Hs & _); [vm_compute; lia|].
  exists cfg, w'. split; [exact E|]. apply Hs. reflexivity.
Defined.

(** ** Missing secrets *)




(** ** Effects of loading *)

(** C3, as the specification states it, fails: with a [.env] file that binds
    a variable the process does not have, the environment after
    [loadConfig()] has that variable. *)
Lemma C3_environment_unchanged_counterexample :
  exists cfg w',
    loadConfig dotenv_process = Returned cfg w'
    /\ environ dotenv_process !! "DATABASE_URL" = None
    /\ environ w' !! "DATABASE_URL" = Some "postgresql://db/prod"
    /\ environ w' <> environ dotenv_process.
Proof.
  rewrite loadConfig_returns by (vm_compute; lia).
  eexists _, _. split; [reflexivity|].
  split; [reflexivity|]. split; [vm_compute; reflexivity|].
  intros E. apply (f_equal (fun m => m !! "DATABASE_URL")) in E.
  vm_compute in E. discriminate.
Qed.

(** C3, amended.  [loadConfig()] logs no secret value: the only records it
    causes are those of [load_dotenv()], a warning naming the line of each
    statement of the [.env] file that cannot be parsed, or the fixed notice
    that loading is disabled.  It removes no variable and rewrites none:
    every variable that is set keeps its value.  What it adds is what
    [load_dotenv()] adds: a variable that is not set gets the value the
    [.env] file binds it to, if any, with the references in that value
    resolved, unless [PYTHON_DOTENV_DISABLED] switches loading off.  Without
    a [.env] binding, or with loading switched off, the environment is the
    same afterwards. *)
Theorem C3_environment_frame (w : World) :
  (56 <= length (entropy w))%nat ->
  exists cfg w',
    loadConfig w = Returned cfg w'
    /\ log w'
       = (log w
          ++ (if load_dotenv_disabled (environ w)
              then [(DEBUG, disabled_notice)]
              else (fun line => (WARNING, parse_warning line))
                     <$> unparsable_lines (dotenv w)))%list
    /\ (forall record,
          record ∈ drop (length (log w)) (log w') ->
          record = (DEBUG, disabled_notice)
          \/ exists line,
               Unparsable line ∈ dotenv w
               /\ record = (WARNING, parse_warning line))
    /\ (forall k v, environ w !! k = Some v -> environ w' !! k = Some v)
    /\ (forall k, environ w !! k = None ->
                  environ w' !! k
                  = if load_dotenv_disabled (environ w) then None
                    else mjoin (resolve_variables (environ w)
                                  (bindings (dotenv w)) !! k))
    /\ (bindings (dotenv w) = [] \/ load_dotenv_disabled (environ w) = true ->
        environ w' = environ w).
Proof.
  intros Hent. rewrite loadConfig_returns by exact Hent.
  eexists _, _. split; [reflexivity|]. cbn [log environ].
  split; [reflexivity|]. split; [|split; [|split]].
  - intros record. rewrite drop_app_length. unfold load_dotenv_records.
    destruct (load_dotenv_disabled (environ w)).
    + intros Hin. apply list_elem_of_singleton in Hin. left. exact Hin.
    + intros Hin. right.
      apply list_elem_of_fmap in Hin as (line & -> & Hline).
      exists line. split; [|reflexivity].
      unfold unparsable_lines in Hline.
      apply list_elem_of_omap in Hline as (st & Hst & Hsome).
      destruct st as [k v|n]; [discriminate|].
      injection Hsome as ->. exact Hst.
  - intros k v Hk. apply merged_set. exact Hk.
  - intros k Hk. unfold merged_environ, load_dotenv_variables.
    rewrite lookup_union_r by exact Hk.
    destruct (load_dotenv_disabled (environ w)); [apply lookup_empty|].
    rewrite lookup_omap.
    destruct (resolve_variables _ _ !! k) as [[v|]|]; reflexivity.
  - unfold merged_environ, load_dotenv_variables.
    intros [Hb|Hd].
    + rewrite Hb. cbn [resolve_variables foldl].
      rewrite omap_empty.
      destruct (load_dotenv_disabled _); apply (right_id_L ∅ (∪)).
    + rewrite Hd. apply (right_id_L ∅ (∪)).
Qed.

Lemma C3_environment_frame_witness :
  (56 <= length (entropy scenario_process))%nat
  /\ exists cfg w',
       loadConfig scenario_process = Returned cfg w'
       /\ log w' = log scenario_process
       /\ environ w' = environ scenario_process.
Proof.
  split; [vm_compute; lia|].
  destruct (C3_environment_frame scenario_process)
    as (cfg & w' & E & Hlog & _ & _ & _ & Hsame); [vm_compute; lia|].
  exists cfg, w'. split; [exact E|]. split.
  - rewrite Hlog. vm_compute. reflexivity.
  - apply Hsame. left. reflexivity.
Defined.

(** ** Defaults *)

(** C4, as the specification states it, fails: [DATABASE_URL] is unset in the
    process environment, the [.env] file binds it, and the configuration has
    the file's value, not the default. *)
Lemma C4_default_database_counterexample :
  environ dotenv_process !! "DATABASE_URL" = None
  /\ exists cfg w',
       loadConfig dotenv_process = Returned cfg w'
       /\ SQLALCHEMY_DATABASE_URI cfg = "postgresql://db/prod"
       /\ SQLALCHEMY_DATABASE_URI cfg <> "sqlite:///inventory.db".
Proof.
  split; [reflexivity|].
  rewrite loadConfig_returns by (vm_compute; lia).
  eexists _, _. split; [reflexivity|].
  split; [vm_compute; reflexivity|]. vm_compute. discriminate.
Qed.

(** C4, amended.  When [DATABASE_URL] is unset in the process environment and
    the [.env] file read by [load_dotenv()] does not bind it either, the
    database location is the default, [sqlite:///inventory.db]. *)
Theorem C4_default_database (w : World) :
  environ w !! "DATABASE_URL" = None ->
  dotenv_values (dotenv w) !! "DATABASE_URL" = None ->
  (56 <= length (entropy w))%nat ->
  exists cfg w',
    loadConfig w = Returned cfg w'
    /\ SQLALCHEMY_DATABASE_URI cfg = "sqlite:///inventory.db".
Proof.
  intros He Hd Hent. rewrite loadConfig_returns by exact Hent.
  eexists _, _. split; [reflexivity|].
  cbn [built_Config SQLALCHEMY_DATABASE_URI]. rewrite (merged_unset w _ He Hd). reflexivity.
Qed.

Lemma C4_default_database_witness :
  environ scenario_process !! "DATABASE_URL" = None
  /\ dotenv_values (dotenv scenario_process) !! "DATABASE_URL" = None
  /\ (56 <= length (entropy scenario_process))%nat
  /\ exists cfg w',
       loadConfig scenario_process = Returned cfg w'
       /\ SQLALCHEMY_DATABASE_URI cfg = "sqlite:///inventory.db".
Proof.
  split; [reflexivity|]. split; [reflexivity|]. split; [vm_compute; lia|].
  apply (C4_default_database scenario_process);
    [reflexivity | reflexivity | vm_compute; lia].
Defined.

(** ** Constants of the class *)

(** C5. Whatever the environment and the [.env] file hold, the content
    security policy of the returned configuration has the directive
    [default-src], with the single source ['self']. *)
Theorem C5_csp_default_src_self (w : World) :
  (56 <= length (entropy w))%nat ->
  exists cfg w',
    loadConfig w = Returned cfg w'
    /\ TALISMAN_CSP cfg !! "default-src" = Some (CspStr "'self'").
Proof.
  intros Hent. rewrite loadConfig_returns by exact Hent.
  eexists _, _. split; reflexivity.
Qed.

Lemma C5_csp_default_src_self_witness :
  (56 <= length (entropy dotenv_process))%nat
  /\ exists cfg w',
       loadConfig dotenv_process = Returned cfg w'
       /\ TALISMAN_CSP cfg !! "default-src" = Some (CspStr "'self'").
Proof.
  split; [vm_compute; lia|].
  apply (C5_csp_default_src_self dotenv_process). vm_compute; lia.
Defined.

(** C9. Whatever the environment and the [.env] file hold, the cookie policy
    of the returned configuration is HTTP-only with same-site [Lax]. *)
Theorem C9_cookie_policy (w : World) :
  (56 <= length (entropy w))%nat ->
  exists cfg w',
    loadConfig w = Returned cfg w'
    /\ SESSION_COOKIE_HTTPONLY cfg = true
    /\ SESSION_COOKIE_SAMESITE cfg = "Lax".
Proof.
  intros Hent. rewrite loadConfig_returns by exact Hent.
  eexists _, _. repeat split.
Qed.

Lemma C9_cookie_policy_witness :
  (56 <= length (entropy dotenv_process))%nat
  /\ exists cfg w',
       loadConfig dotenv_process = Returned cfg w'
       /\ SESSION_COOKIE_HTTPONLY cfg = true
       /\ SESSION_COOKIE_SAMESITE cfg = "Lax".
Proof.
  split; [vm_compute; lia|].
  apply (C9_cookie_policy dotenv_process). vm_compute; lia.
Defined.

(** ** Generated secrets *)

(** C6. Whenever the encryption key is the generated one, that is, neither
    the environment nor the [.env] file supplies [FERNET_KEY], its URL-safe
    base64 text decodes, and to exactly 32 bytes: the 32 bytes drawn. *)
Theorem C6_generated_key_is_32_bytes (w : World) :
  environ w !! "FERNET_KEY" = None ->
  dotenv_values (dotenv w) !! "FERNET_KEY" = None ->
  (56 <= length (entropy w))%nat ->
  exists cfg w' raw,
    loadConfig w = Returned cfg w'
    /\ Base64.urlsafe_b64decode (FERNET_KEY cfg) = Some raw
    /\ length raw = 32%nat
    /\ raw = take 32 (drop 24 (entropy w)).
Proof.
  intros He Hd Hent. rewrite loadConfig_returns by exact Hent.
  eexists _, _, _. split; [reflexivity|].
  cbn [built_Config FERNET_KEY]. rewrite (merged_unset w _ He Hd). cbn [default].
  split; [apply urlsafe_b64decode_encode|].
  split; [|reflexivity].
  rewrite length_take, length_drop. lia.
Qed.

Lemma C6_generated_key_is_32_bytes_witness :
  environ scenario_process !! "FERNET_KEY" = None
  /\ dotenv_values (dotenv scenario_process) !! "FERNET_KEY" = None
  /\ (56 <= length (entropy scenario_process))%nat
  /\ exists cfg w' raw,
       loadConfig scenario_process = Returned cfg w'
       /\ Base64.urlsafe_b64decode (FERNET_KEY cfg) = Some raw
       /\ length raw = 32%nat
       /\ raw = take 32 (drop 24 (entropy scenario_process)).
Proof.
  split; [reflexivity|]. split; [reflexivity|]. split; [vm_compute; lia|].
  apply (C6_generated_key_is_32_bytes scenario_process);
    [reflexivity | reflexivity | vm_compute; lia].
Defined.

(** C7, as the specification states it, fails: nothing in the code keeps two
    generated keys apart.  On a system whose entropy source repeats itself,
    two starts with no [SECRET_KEY] end with the same secret key. *)
Lemma C7_repeated_draw_counterexample :
  environ stuck_process !! "SECRET_KEY" = None
  /\ environ bare_process !! "SECRET_KEY" = None
  /\ exists cfg1 w1 cfg2 w2,
       loadConfig stuck_process = Returned cfg1 w1
       /\ entropy bare_process = entropy w1
       /\ loadConfig bare_process = Returned cfg2 w2
       /\ SECRET_KEY cfg1 = SECRET_KEY cfg2.
Proof.
  split; [reflexivity|]. split; [reflexivity|].
  rewrite !loadConfig_returns by (vm_compute; lia).
  eexists _, _, _, _. split; [reflexivity|].
  split; [vm_compute; reflexivity|]. split; [reflexivity|].
  vm_compute. reflexivity.
Qed.

(** C7, amended.  In two starts of the process in which the secret key is
    generated (neither the environment nor the [.env] file supplies
    [SECRET_KEY]), the two keys differ exactly when the entropy source
    delivers different bytes to the two first draws of 24.  When the second
    start follows the first on the same entropy source, these are bytes 0 to
    23 and bytes 56 to 79 of that source, the first start having consumed
    56. *)
Theorem C7_keys_differ_iff_draws_differ (w1 w2 : World) :
  environ w1 !! "SECRET_KEY" = None ->
  dotenv_values (dotenv w1) !! "SECRET_KEY" = None ->
  environ w2 !! "SECRET_KEY" = None ->
  dotenv_values (dotenv w2) !! "SECRET_KEY" = None ->
  (56 <= length (entropy w1))%nat ->
  (56 <= length (entropy w2))%nat ->
  exists cfg1 w1' cfg2 w2',
    loadConfig w1 = Returned cfg1 w1'
    /\ loadConfig w2 = Returned cfg2 w2'
    /\ (SECRET_KEY cfg1 <> SECRET_KEY cfg2
        <-> take 24 (entropy w1) <> take 24 (entropy w2))
    /\ (entropy w2 = entropy w1' ->
        (SECRET_KEY cfg1 <> SECRET_KEY cfg2
         <-> take 24 (entropy w1) <> take 24 (drop 56 (entropy w1)))).
Proof.
  intros He1 Hd1 He2 Hd2 Hent1 Hent2.
  rewrite !loadConfig_returns by assumption.
  eexists _, _, _, _. split; [reflexivity|]. split; [reflexivity|].
  cbn [built_Config SECRET_KEY entropy].
  rewrite (merged_unset _ _ He1 Hd1), (merged_unset _ _ He2 Hd2).
  cbn [default].
  assert (Hiff : Hex.hex (take 24 (entropy w1)) <> Hex.hex (take 24 (entropy w2))
                 <-> take 24 (entropy w1) <> take 24 (entropy w2)).
  { split; intros Hne E; apply Hne;
      [rewrite E; reflexivity | apply hex_inj; exact E]. }
  split; [exact Hiff|].
  intros Hseq. rewrite <- Hseq. exact Hiff.
Qed.

Lemma C7_keys_differ_iff_draws_differ_witness :
  take 24 (entropy bare_process) <> take 24 (entropy restarted_process)
  /\ exists cfg1 w1' cfg2 w2',
       loadConfig bare_process = Returned cfg1 w1'
       /\ loadConfig restarted_process = Returned cfg2 w2'
       /\ SECRET_KEY cfg1 <> SECRET_KEY cfg2.
Proof.
  assert (Hfresh : take 24 (entropy bare_process)
                   <> take 24 (entropy restarted_process))
    by (vm_compute; discriminate).
  split; [exact Hfresh|].
  destruct (C7_keys_differ_iff_draws_differ bare_process restarted_process)
    as (cfg1 & w1' & cfg2 & w2' & E1 & E2 & Hiff & _);
    [reflexivity | reflexivity | reflexivity | reflexivity
     | vm_compute; lia | vm_compute; lia |].
  exists cfg1, w1', cfg2, w2'. split; [exact E1|]. split; [exact E2|].
  apply Hiff. exact Hfresh.
Defined.

(** ** Application construction *)

Lemma import_Config_cached (w : World) (c : Config) :
  sys_modules w = Some c -> import_Config w = Returned c w.
Proof. intros H. unfold import_Config. rewrite H. reflexivity. Qed.

Lemma import_Config_first (w : World) :
  sys_modules w = None ->
  (56 <= length (entropy w))%nat ->
  exists c,
    import_Config w
    = Returned c (mkWorld (merged_environ w) (dotenv w) (drop 56 (entropy w))
                          (log w ++ load_dotenv_records w)%list (Some c)).
Proof.
  intros Hnone Hent. unfold import_Config. rewrite Hnone.
  rewrite loadConfig_returns by exact Hent.
  eexists. reflexivity.
Qed.

Lemma import_Config_returns (w : World) :
  is_Some (sys_modules w) \/ (56 <= length (entropy w))%nat ->
  exists c w', import_Config w = Returned c w' /\ sys_modules w' = Some c.
Proof.
  intros [[c Hc]|Hent].
  - exists c, w. split; [apply import_Config_cached; exact Hc | exact Hc].
  - destruct (sys_modules w) as [c|] eqn:Hc.
    + exists c, w. split; [apply import_Config_cached; exact Hc | exact Hc].
    + destruct (import_Config_first w Hc Hent) as [c E].
      eexists _, _. split; [exact E | reflexivity].
Qed.

Lemma create_app_returns (w : World) :
  is_Some (sys_modules w) \/ (56 <= length (entropy w))%nat ->
  exists c w',
    import_Config w = Returned c w'
    /\ sys_modules w' = Some c
    /\ create_app w
       = Returned (mkFlask (Some c)
                           ["db"; "login_manager"; "csrf"; "talisman"; "limiter"]
                           mounted true) w'.
Proof.
  intros H. destruct (import_Config_returns w H) as (c & w' & E & Hc).
  exists c, w'. split; [exact E|]. split; [exact Hc|].
  unfold create_app, bind. rewrite E. reflexivity.
Qed.

(** C8. An application that [create_app] returns has exactly the five
    route-handler groups [auth], [clients], [networks], [projects] and
    [users] mounted, under exactly the six prefixes [/auth], [/api/auth],
    [/api/clients], [/api/networks], [/api/projects] and [/api/users] (the
    group [auth] under the first two), and nothing under any other
    prefix. *)
Theorem C8_five_groups_six_prefixes (w : World) (app : Flask) (w' : World) :
  create_app w = Returned app w' ->
  blueprints app = mounted
  /\ snd <$> blueprints app
     = ["/auth"; "/api/auth"; "/api/clients"; "/api/networks";
        "/api/projects"; "/api/users"]
  /\ remove_dups (route_group <$> blueprints app)
     = ["auth"; "clients"; "networks"; "projects"; "users"]
  /\ route_group <$> blueprints app
     = ["auth"; "auth"; "clients"; "networks"; "projects"; "users"]
  /\ (forall bp prefix,
        (bp, prefix) ∈ blueprints app ->
        prefix ∈ ["/auth"; "/api/auth"; "/api/clients"; "/api/networks";
                  "/api/projects"; "/api/users"])
  /\ NoDup (snd <$> blueprints app).
Proof.
  intros E. unfold create_app, bind in E.
  destruct (import_Config w) as [c w1|e]; [|discriminate].
  injection E as <- _. cbn [blueprints register_blueprint create_all
    init_app from_object Flask_new app].
  split; [reflexivity|]. split; [reflexivity|].
  split; [vm_compute; reflexivity|]. split; [vm_compute; reflexivity|].
  split.
  - intros bp prefix Hin.
    apply (list_elem_of_fmap_2 snd) in Hin. exact Hin.
  - apply (bool_decide_unpack _). vm_compute. reflexivity.
Qed.

Lemma C8_five_groups_six_prefixes_witness :
  exists app w',
    create_app scenario_process = Returned app w'
    /\ remove_dups (route_group <$> blueprints app)
       = ["auth"; "clients"; "networks"; "projects"; "users"]
    /\ snd <$> blueprints app
       = ["/auth"; "/api/auth"; "/api/clients"; "/api/networks";
          "/api/projects"; "/api/users"].
Proof.
  destruct (create_app_returns scenario_process)
    as (c & w' & _ & _ & E); [right; vm_compute; lia|].
  eexists _, w'. split; [exact E|].
  destruct (C8_five_groups_six_prefixes scenario_process _ w' E)
    as (_ & Hp & Hg & _).
  split; [exact Hg | exact Hp].
Defined.

(** ** One configuration per process *)

Lemma step_cached (ev : event) (w : World) (c : Config) :
  sys_modules w = Some c ->
  exists w',
    step ev w = Returned (if reads ev then Some c else None) w'
    /\ sys_modules w' = Some c
    /\ entropy w' = entropy w
    /\ log w' = log w.
Proof.
  intros Hc. destruct ev as [| |k v|k]; cbn [step reads].
  - exists w. unfold bind. rewrite (import_Config_cached w c Hc).
    repeat split; assumption.
  - exists w. unfold create_app, bind. rewrite (import_Config_cached w c Hc).
    repeat split; assumption.
  - eexists. split; [reflexivity|]. repeat split; assumption.
  - eexists. split; [reflexivity|]. repeat split; assumption.
Qed.

Lemma run_cached (evs : list event) (w : World) (c : Config) :
  sys_modules w = Some c ->
  exists cs w',
    run evs w = Returned cs w'
    /\ cs = replicate (length (filter (fun ev => reads ev = true) evs)) c
    /\ sys_modules w' = Some c
    /\ entropy w' = entropy w
    /\ log w' = log w.
Proof.
  revert w. induction evs as [|ev evs IH]; intros w Hc.
  - exists [], w. repeat split; assumption.
  - destruct (step_cached ev w c Hc) as (w1 & E1 & Hc1 & Hent1 & Hlog1).
    destruct (IH w1 Hc1) as (cs & w2 & E2 & Hcs & Hc2 & Hent2 & Hlog2).
    cbn [run]. unfold bind at 1. rewrite E1.
    unfold bind at 1. rewrite E2. unfold ret.
    eexists _, w2. split; [reflexivity|].
    split; [|repeat split; congruence].
    rewrite filter_cons. destruct (reads ev) eqn:Hr.
    + rewrite decide_True by reflexivity. cbn [length replicate]. congruence.
    + rewrite decide_False by discriminate. exact Hcs.
Qed.

(** C10. In one process the generated secrets are computed once, when the
    configuration module is first imported: that import draws the 56 bytes,
    and from then on every read of the configuration, by a further import
    or through the [app.config] of any application built, observes the same
    [SECRET_KEY] and [FERNET_KEY], whatever is done to [os.environ] in
    between.  No later event draws randomness. *)
Theorem C10_secrets_computed_once (w : World) (evs : list event) :
  sys_modules w = None ->
  (56 <= length (entropy w))%nat ->
  exists cfg w1 cs w2,
    import_Config w = Returned cfg w1
    /\ entropy w1 = drop 56 (entropy w)
    /\ run evs w1 = Returned cs w2
    /\ length cs = length (filter (fun ev => reads ev = true) evs)
    /\ (forall c, c ∈ cs ->
          c = cfg
          /\ SECRET_KEY c = SECRET_KEY cfg
          /\ FERNET_KEY c = FERNET_KEY cfg)
    /\ entropy w2 = entropy w1
    /\ sys_modules w2 = Some cfg.
Proof.
  intros Hnone Hent.
  destruct (import_Config_first w Hnone Hent) as [cfg E].
  set (w1 := mkWorld _ _ _ _ _) in E.
  destruct (run_cached evs w1 cfg eq_refl)
    as (cs & w2 & Erun & Hcs & Hc2 & Hent2 & _).
  exists cfg, w1, cs, w2.
  split; [exact E|]. split; [reflexivity|]. split; [exact Erun|].
  split; [rewrite Hcs; apply length_replicate|].
  split; [|split; assumption].
  intros c Hin. rewrite Hcs in Hin.
  apply elem_of_replicate in Hin as [-> _]. repeat split.
Qed.

Lemma C10_secrets_computed_once_witness :
  sys_modules bare_process = None
  /\ (56 <= length (entropy bare_process))%nat
  /\ exists cfg w1 cs w2,
       import_Config bare_process = Returned cfg w1
       /\ run [CreateApp; Putenv "SECRET_KEY" "other"; Import; CreateApp] w1
          = Returned cs w2
       /\ length cs = 3%nat
       /\ (forall c, c ∈ cs -> SECRET_KEY c = SECRET_KEY cfg)
       /\ entropy w2 = entropy w1.
Proof.
  split; [reflexivity|]. split; [vm_compute; lia|].
  destruct (C10_secrets_computed_once bare_process
              [CreateApp; Putenv "SECRET_KEY" "other"; Import; CreateApp])
    as (cfg & w1 & cs & w2 & E & _ & Erun & Hlen & Hall & Hent & _);
    [reflexivity | vm_compute; lia |].
  exists cfg, w1, cs, w2.
  split; [exact E|]. split; [exact Erun|]. split; [exact Hlen|].
  split; [|exact Hent].
  intros c Hin. apply (Hall c Hin).
Defined.

(** * Further properties of the code *)

(** ** Where each attribute comes from *)

(** Interpolation always has steps enough. *)

Lemma span_length (p : ascii -> bool) (s : string) :
  (String.length (span p s).2 <= String.length s)%nat.
Proof.
  induction s as [|c s IH]; [reflexivity|].
  cbn [span]. destruct (p c); [|reflexivity].
  destruct (span p s) as [pre rest]. cbn [snd String.length] in *. lia.
Qed.

Lemma reference_not_dollar (c : ascii) (s : string) :
  c <> "$"%char -> reference (String c s) = None.
Proof.
  intros Hc.
  destruct c as [[] [] [] [] [] [] [] []]; try reflexivity.
  contradiction Hc. reflexivity.
Qed.

Lemma reference_shorter (s name rest : string) (dflt : option string) :
  reference s = Some (name, dflt, rest) ->
  (String.length rest < String.length s)%nat.
Proof.
  intros H.
  destruct s as [|c s]; [discriminate|].
  destruct (Ascii.eqb_spec c "$") as [->|Hc];
    [|rewrite reference_not_dollar in H by exact Hc; discriminate].
  destruct s as [|c s1]; [discriminate|].
  destruct c as [[] [] [] [] [] [] [] []]; try discriminate.
  cbn [reference] in H.
  pose proof (span_length
                (fun c => negb (Ascii.eqb c "}" || Ascii.eqb c ":")) s1) as L1.
  destruct (span _ s1) as [nm r1]. cbn [snd] in L1.
  destruct r1 as [|c1 r2]; [discriminate|].
  destruct c1 as [[] [] [] [] [] [] [] []]; try discriminate.
  - injection H as _ _ <-. cbn [String.length] in *. lia.
  - destruct r2 as [|c2 r2]; [discriminate|].
    destruct c2 as [[] [] [] [] [] [] [] []]; try discriminate.
    pose proof (span_length (fun c => negb (Ascii.eqb c "}")) r2) as L2.
    destruct (span _ r2) as [df r3]. cbn [snd] in L2.
    destruct r3 as [|c3 r4]; [discriminate|].
    destruct c3 as [[] [] [] [] [] [] [] []]; try discriminate.
    injection H as _ _ <-. cbn [String.length] in *. lia.
Qed.

Lemma interpolate_steps_enough (n m : nat) (environ : gmap string string)
    (new_values : gmap string (option string)) (s : string) :
  (String.length s <= n)%nat ->
  (String.length s <= m)%nat ->
  interpolate_steps n environ new_values s
  = interpolate_steps m environ new_values s.
Proof.
  revert m s. induction n as [|n IH]; intros m s Hn Hm.
  - destruct s; [destruct m; reflexivity | cbn in Hn; lia].
  - destruct m as [|m]; [destruct s; [reflexivity | cbn in Hm; lia]|].
    cbn [interpolate_steps].
    destruct (reference s) as [[[name dflt] rest]|] eqn:Href.
    + apply reference_shorter in Href.
      rewrite (IH m rest) by lia. reflexivity.
    + destruct s as [|c s]; [reflexivity|].
      cbn [String.length] in *. rewrite (IH m s) by lia. reflexivity.
Qed.

Lemma interpolate_plain (environ : gmap string string)
    (new_values : gmap string (option string)) (s : string) :
  plain s = true -> interpolate environ new_values s = s.
Proof.
  unfold interpolate. generalize (String.length s) as n.
  induction s as [|c s IH]; intros n Hs.
  - destruct n; reflexivity.
  - destruct n as [|n]; [reflexivity|].
    unfold plain in Hs. cbn [string_forallb] in Hs.
    apply andb_prop in Hs as [Hc Hs].
    cbn [interpolate_steps].
    rewrite reference_not_dollar by (intros ->; discriminate).
    rewrite (IH n Hs). reflexivity.
Qed.

(** A binding whose value has no dollar sign is resolved to that value. *)
Lemma foldl_resolve_plain (environ : gmap string string)
    (l : list (string * option string)) (k : string)
    (d_raw d_res : gmap string (option string)) :
  (forall raw, d_raw !! k = Some (Some raw) -> plain raw = true ->
               d_res !! k = Some (Some raw)) ->
  forall raw,
    foldl (fun d kv => <[kv.1 := kv.2]> d) d_raw l !! k = Some (Some raw) ->
    plain raw = true ->
    foldl (fun new_values kv =>
             <[kv.1 := interpolate environ new_values <$> kv.2]> new_values)
          d_res l !! k = Some (Some raw).
Proof.
  revert d_raw d_res. induction l as [|[k' v'] l IH]; intros d_raw d_res Hinv.
  - exact Hinv.
  - cbn [foldl fst snd]. apply IH.
    intros raw Hraw Hplain.
    destruct (decide (k' = k)) as [->|Hne].
    + rewrite lookup_insert_eq in Hraw. injection Hraw as ->.
      rewrite lookup_insert_eq. cbn [fmap option_fmap option_map].
      rewrite interpolate_plain by exact Hplain. reflexivity.
    + rewrite lookup_insert_ne in Hraw by exact Hne.
      rewrite lookup_insert_ne by exact Hne.
      apply Hinv; assumption.
Qed.

Lemma resolve_variables_plain (environ : gmap string string)
    (stmts : list statement) (k raw : string) :
  dotenv_values stmts !! k = Some (Some raw) ->
  plain raw = true ->
  resolve_variables environ (bindings stmts) !! k = Some (Some raw).
Proof.
  unfold dotenv_values, resolve_variables.
  apply foldl_resolve_plain.
  intros raw' H. rewrite lookup_empty in H. discriminate.
Qed.

(** X1. Unless [PYTHON_DOTENV_DISABLED] switches loading off, a variable the
    class reads that is not set in the process environment and that the
    [.env] file binds to a value reaches its attribute with that value, the
    references [${NAME}] in it resolved: [load_dotenv()] has put it in
    [os.environ] before the class body looks it up.  A value without a
    dollar sign arrives as the file has it (the last binding, if the file
    binds the variable more than once). *)
Theorem X1_dotenv_value_is_used (w : World) (k : string)
    (attribute : Config -> string) :
  (k, attribute) ∈ reads_from ->
  environ w !! k = None ->
  load_dotenv_disabled (environ w) = false ->
  (56 <= length (entropy w))%nat ->
  exists cfg w',
    loadConfig w = Returned cfg w'
    /\ (forall v,
          resolve_variables (environ w) (bindings (dotenv w)) !! k
          = Some (Some v) ->
          attribute cfg = v)
    /\ (forall raw,
          dotenv_values (dotenv w) !! k = Some (Some raw) ->
          plain raw = true ->
          attribute cfg = raw).
Proof.
  intros Hk He Hon Hent. rewrite loadConfig_returns by exact Hent.
  eexists _, _. split; [reflexivity|].
  assert (Hm : forall v,
             resolve_variables (environ w) (bindings (dotenv w)) !! k
             = Some (Some v) ->
             merged_environ w !! k = Some v).
  { intros v Hv. unfold merged_environ, load_dotenv_variables.
    rewrite Hon, lookup_union_r by exact He.
    rewrite lookup_omap, Hv. reflexivity. }
  assert (Hattr : forall v, merged_environ w !! k = Some v ->
                  attribute (built_Config (merged_environ w)
                               (take 24 (entropy w))
                               (take 32 (drop 24 (entropy w)))) = v).
  { intros v Hv. unfold reads_from in Hk.
    repeat (apply elem_of_cons in Hk as [Hk|Hk];
            [injection Hk as -> ->; cbn; rewrite Hv; reflexivity|]).
    apply elem_of_nil in Hk. destruct Hk. }
  split.
  - intros v Hv. apply Hattr, Hm, Hv.
  - intros raw Hraw Hplain. apply Hattr, Hm.
    apply resolve_variables_plain; assumption.
Qed.

Lemma X1_dotenv_value_is_used_witness :
  environ interpolating_process !! "DATABASE_URL" = None
  /\ load_dotenv_disabled (environ interpolating_process) = false
  /\ (56 <= length (entropy interpolating_process))%nat
  /\ exists cfg w',
       loadConfig interpolating_process = Returned cfg w'
       /\ SQLALCHEMY_DATABASE_URI cfg = "postgresql://envhost/prod".
Proof.
  split; [reflexivity|]. split; [reflexivity|]. split; [vm_compute; lia|].
  destruct (X1_dotenv_value_is_used interpolating_process
              "DATABASE_URL" SQLALCHEMY_DATABASE_URI)
    as (cfg & w' & E & Hv & _);
    [unfold reads_from; apply list_elem_of_further, list_elem_of_here
    | reflexivity | reflexivity | vm_compute; lia |].
  exists cfg, w'. split; [exact E|].
  apply Hv. vm_compute. reflexivity.
Defined.

(** X2. When [REDIS_URL] is set neither in the process environment nor in
    the [.env] file, the rate-limit storage location is the default,
    [redis://redis:6379/0]. *)
Theorem X2_default_rate_limit_storage (w : World) :
  environ w !! "REDIS_URL" = None ->
  dotenv_values (dotenv w) !! "REDIS_URL" = None ->
  (56 <= length (entropy w))%nat ->
  exists cfg w',
    loadConfig w = Returned cfg w'
    /\ RATE_LIMIT_STORAGE_URL cfg = "redis://redis:6379/0".
Proof.
  intros He Hd Hent. rewrite loadConfig_returns by exact Hent.
  eexists _, _. split; [reflexivity|].
  cbn [built_Config RATE_LIMIT_STORAGE_URL]. rewrite (merged_unset w _ He Hd). reflexivity.
Qed.

Lemma X2_default_rate_limit_storage_witness :
  environ scenario_process !! "REDIS_URL" = None
  /\ dotenv_values (dotenv scenario_process) !! "REDIS_URL" = None
  /\ (56 <= length (entropy scenario_process))%nat
  /\ exists cfg w',
       loadConfig scenario_process = Returned cfg w'
       /\ RATE_LIMIT_STORAGE_URL cfg = "redis://redis:6379/0".
Proof.
  split; [reflexivity|]. split; [reflexivity|]. split; [vm_compute; lia|].
  apply (X2_default_rate_limit_storage scenario_process);
    [reflexivity | reflexivity | vm_compute; lia].
Defined.

(** ** The defaults are computed in every case *)



(** ** Shape of the generated secrets *)

Lemma hex_byte_lower (b : byte) :
  is_lower_hex (Hex.digit (N.shiftr (Byte.to_N b) 4))
  && is_lower_hex (Hex.digit (N.land (Byte.to_N b) 15)) = true.
Proof. destruct b; reflexivity. Qed.

Lemma hex_lower (bs : list byte) :
  string_forallb is_lower_hex (Hex.hex bs) = true.
Proof.
  induction bs as [|b bs IH]; [reflexivity|].
  cbn [Hex.hex string_forallb]. rewrite IH, andb_true_r.
  apply hex_byte_lower.
Qed.

Lemma length_string_of_list_byte (bs : list byte) :
  String.length (string_of_list_byte bs) = length bs.
Proof.
  induction bs as [|b bs IH]; [reflexivity|].
  simpl. f_equal. exact IH.
Qed.

Lemma length_encode (bs : list byte) :
  length (Base64.encode bs) = (4 * ((length bs + 2) / 3))%nat.
Proof.
  induction bs as [|b0|b0 b1|b0 b1 b2 bs IH] using list_ind3;
    [reflexivity..|].
  cbn [Base64.encode length]. rewrite IH.
  replace (S (S (S (length bs))) + 2)%nat with (1 * 3 + (length bs + 2))%nat
    by lia.
  rewrite Nat.div_add_l by discriminate. lia.
Qed.

Lemma urlsafe_table :
  forallb (fun n => is_urlsafe (Base64.char_of_sextet (N.of_nat n))) (seq 0 64)
  = true.
Proof. vm_compute. reflexivity. Qed.

Lemma sextet_urlsafe (w k : N) : is_urlsafe (Base64.sextet w k) = true.
Proof.
  unfold Base64.sextet. rewrite mask6.
  assert (Hlt : (w / 2 ^ k) mod 64 < 64) by (apply N.mod_lt; discriminate).
  set (s := (w / 2 ^ k) mod 64) in *.
  pose proof urlsafe_table as H. rewrite List.forallb_forall in H.
  specialize (H (N.to_nat s)). rewrite N2Nat.id in H.
  apply H. apply in_seq. lia.
Qed.

Lemma encode_urlsafe (bs : list byte) :
  forallb is_urlsafe (Base64.encode bs) = true.
Proof.
  induction bs as [|b0|b0 b1|b0 b1 b2 bs IH] using list_ind3;
    cbn [Base64.encode forallb];
    rewrite ?sextet_urlsafe, ?IH; reflexivity.
Qed.

Lemma encode_inj (bs bs' : list byte) :
  Base64.encode bs = Base64.encode bs' -> bs = bs'.
Proof.
  intros E. apply (f_equal Base64.decode) in E.
  rewrite !decode_encode in E. congruence.
Qed.

Lemma bytes_decode_inj (bs bs' : list byte) :
  bytes_decode bs = bytes_decode bs' -> bs = bs'.
Proof.
  unfold bytes_decode. intros E. apply (f_equal list_byte_of_string) in E.
  rewrite !list_byte_of_string_of_list_byte in E. exact E.
Qed.

(** X4. A generated secret key (no [SECRET_KEY] in the environment or the
    [.env] file) is a string of 48 lower-case hexadecimal digits, and
    [bytes.fromhex] reads it back to the 24 bytes that were drawn. *)
Theorem X4_generated_secret_key_shape (w : World) :
  environ w !! "SECRET_KEY" = None ->
  dotenv_values (dotenv w) !! "SECRET_KEY" = None ->
  (56 <= length (entropy w))%nat ->
  exists cfg w',
    loadConfig w = Returned cfg w'
    /\ String.length (SECRET_KEY cfg) = 48%nat
    /\ string_forallb is_lower_hex (SECRET_KEY cfg) = true
    /\ Hex.fromhex (SECRET_KEY cfg) = Some (take 24 (entropy w)).
Proof.
  intros He Hd Hent. rewrite loadConfig_returns by exact Hent.
  eexists _, _. split; [reflexivity|].
  cbn [built_Config SECRET_KEY]. rewrite (merged_unset w _ He Hd). cbn [default].
  split; [|split].
  - rewrite length_hex, length_take. lia.
  - apply hex_lower.
  - apply fromhex_hex.
Qed.

Lemma X4_generated_secret_key_shape_witness :
  environ dotenv_process !! "SECRET_KEY" = None
  /\ dotenv_values (dotenv dotenv_process) !! "SECRET_KEY" = None
  /\ (56 <= length (entropy dotenv_process))%nat
  /\ exists cfg w',
       loadConfig dotenv_process = Returned cfg w'
       /\ String.length (SECRET_KEY cfg) = 48%nat
       /\ string_forallb is_lower_hex (SECRET_KEY cfg) = true
       /\ Hex.fromhex (SECRET_KEY cfg) = Some (take 24 (entropy dotenv_process)).
Proof.
  split; [reflexivity|]. split; [vm_compute; reflexivity|].
  split; [vm_compute; lia|].
  apply (X4_generated_secret_key_shape dotenv_process);
    [reflexivity | vm_compute; reflexivity | vm_compute; lia].
Defined.

(** X5. A generated encryption key (no [FERNET_KEY] in the environment or
    the [.env] file) is a text of 44 characters, each one of the URL-safe
    base64 alphabet or the padding [=]. *)
Theorem X5_generated_fernet_key_shape (w : World) :
  environ w !! "FERNET_KEY" = None ->
  dotenv_values (dotenv w) !! "FERNET_KEY" = None ->
  (56 <= length (entropy w))%nat ->
  exists cfg w',
    loadConfig w = Returned cfg w'
    /\ String.length (FERNET_KEY cfg) = 44%nat
    /\ forallb is_urlsafe (list_byte_of_string (FERNET_KEY cfg)) = true.
Proof.
  intros He Hd Hent. rewrite loadConfig_returns by exact Hent.
  eexists _, _. split; [reflexivity|].
  cbn [built_Config FERNET_KEY]. rewrite (merged_unset w _ He Hd). cbn [default].
  unfold bytes_decode, Base64.urlsafe_b64encode. split.
  - rewrite length_string_of_list_byte, length_encode.
    rewrite length_take, length_drop.
    replace (32 `min` (length (entropy w) - 24))%nat with 32%nat by lia.
    reflexivity.
  - rewrite list_byte_of_string_of_list_byte. apply encode_urlsafe.
Qed.

Lemma X5_generated_fernet_key_shape_witness :
  environ scenario_process !! "FERNET_KEY" = None
  /\ dotenv_values (dotenv scenario_process) !! "FERNET_KEY" = None
  /\ (56 <= length (entropy scenario_process))%nat
  /\ exists cfg w',
       loadConfig scenario_process = Returned cfg w'
       /\ String.length (FERNET_KEY cfg) = 44%nat
       /\ forallb is_urlsafe (list_byte_of_string (FERNET_KEY cfg)) = true.
Proof.
  split; [reflexivity|]. split; [reflexivity|]. split; [vm_compute; lia|].
  apply (X5_generated_fernet_key_shape scenario_process);
    [reflexivity | reflexivity | vm_compute; lia].
Defined.

(** X6. Two starts of the process in which the encryption key is generated
    and in which the entropy source delivers different bytes to the second
    draw end with different encryption keys: no two draws share a key. *)
Theorem X6_fresh_fernet_keys_differ (w1 w2 : World) :
  environ w1 !! "FERNET_KEY" = None ->
  dotenv_values (dotenv w1) !! "FERNET_KEY" = None ->
  environ w2 !! "FERNET_KEY" = None ->
  dotenv_values (dotenv w2) !! "FERNET_KEY" = None ->
  (56 <= length (entropy w1))%nat ->
  (56 <= length (entropy w2))%nat ->
  take 32 (drop 24 (entropy w1)) <> take 32 (drop 24 (entropy w2)) ->
  exists cfg1 w1' cfg2 w2',
    loadConfig w1 = Returned cfg1 w1'
    /\ loadConfig w2 = Returned cfg2 w2'
    /\ FERNET_KEY cfg1 <> FERNET_KEY cfg2.
Proof.
  intros He1 Hd1 He2 Hd2 Hent1 Hent2 Hfresh.
  rewrite !loadConfig_returns by assumption.
  eexists _, _, _, _. split; [reflexivity|]. split; [reflexivity|].
  cbn [built_Config FERNET_KEY].
  rewrite (merged_unset _ _ He1 Hd1).
  rewrite (merged_unset _ _ He2 Hd2).
  cbn [default]. intros E. apply Hfresh.
  apply encode_inj, bytes_decode_inj. exact E.
Qed.

Lemma X6_fresh_fernet_keys_differ_witness :
  take 32 (drop 24 (entropy bare_process))
  <> take 32 (drop 24 (entropy restarted_process))
  /\ exists cfg1 w1' cfg2 w2',
       loadConfig bare_process = Returned cfg1 w1'
       /\ loadConfig restarted_process = Returned cfg2 w2'
       /\ FERNET_KEY cfg1 <> FERNET_KEY cfg2.
Proof.
  assert (Hfresh : take 32 (drop 24 (entropy bare_process))
                   <> take 32 (drop 24 (entropy restarted_process)))
    by (vm_compute; discriminate).
  split; [exact Hfresh|].
  apply (X6_fresh_fernet_keys_differ bare_process restarted_process);
    [reflexivity | reflexivity | reflexivity | reflexivity
     | vm_compute; lia | vm_compute; lia | exact Hfresh].
Defined.

(** ** What the environment cannot change *)

(** X7. Whatever the environment and the [.env] file hold, the content
    security policy has exactly three directives: [default-src] with
    ['self'], and [style-src] and [script-src], each with ['self'] and
    [https://cdn.jsdelivr.net]. *)
Theorem X7_csp_is_fixed (w : World) :
  (56 <= length (entropy w))%nat ->
  exists cfg w',
    loadConfig w = Returned cfg w'
    /\ forall directive,
         TALISMAN_CSP cfg !! directive
         = if decide (directive = "default-src") then Some (CspStr "'self'")
           else if decide (directive = "style-src")
                then Some (CspList ["'self'"; "https://cdn.jsdelivr.net"])
           else if decide (directive = "script-src")
                then Some (CspList ["'self'"; "https://cdn.jsdelivr.net"])
           else None.
Proof.
  intros Hent. rewrite loadConfig_returns by exact Hent.
  eexists _, _. split; [reflexivity|].
  intros directive. cbn [built_Config TALISMAN_CSP].
  unfold TALISMAN_CSP_value.
  repeat case_decide; subst; try reflexivity.
  rewrite !lookup_insert_ne by congruence. apply lookup_empty.
Qed.

Lemma X7_csp_is_fixed_witness :
  (56 <= length (entropy layered_process))%nat
  /\ exists cfg w',
       loadConfig layered_process = Returned cfg w'
       /\ TALISMAN_CSP cfg !! "img-src" = None
       /\ TALISMAN_CSP cfg !! "script-src"
          = Some (CspList ["'self'"; "https://cdn.jsdelivr.net"]).
Proof.
  split; [vm_compute; lia|].
  destruct (X7_csp_is_fixed layered_process) as (cfg & w' & E & H);
    [vm_compute; lia|].
  exists cfg, w'. split; [exact E|].
  split; [exact (H "img-src") | exact (H "script-src")].
Defined.

(** X8. Whatever the environment and the [.env] file hold, CSRF protection
    and the security headers are switched on and modification tracking is
    switched off: no variable reaches these three settings. *)
Theorem X8_switches_are_fixed (w : World) :
  (56 <= length (entropy w))%nat ->
  exists cfg w',
    loadConfig w = Returned cfg w'
    /\ WTF_CSRF_ENABLED cfg = true
    /\ TALISMAN_ENABLED cfg = true
    /\ SQLALCHEMY_TRACK_MODIFICATIONS cfg = false.
Proof.
  intros Hent. rewrite loadConfig_returns by exact Hent.
  eexists _, _. repeat split.
Qed.

Lemma X8_switches_are_fixed_witness :
  (56 <= length (entropy layered_process))%nat
  /\ exists cfg w',
       loadConfig layered_process = Returned cfg w'
       /\ WTF_CSRF_ENABLED cfg = true
       /\ TALISMAN_ENABLED cfg = true
       /\ SQLALCHEMY_TRACK_MODIFICATIONS cfg = false.
Proof.
  split; [vm_compute; lia|].
  apply (X8_switches_are_fixed layered_process). vm_compute; lia.
Defined.

(** ** The application factory *)

(** X9. An application that [create_app] returns has had the five
    extensions initialised, in the order [db], [login_manager], [csrf],
    [talisman], [limiter], has its database tables created, and carries as
    its configuration the class of the configuration module, the one that
    is then in [sys.modules]. *)
Theorem X9_app_is_fully_built (w : World) :
  is_Some (sys_modules w) \/ (56 <= length (entropy w))%nat ->
  exists app w',
    create_app w = Returned app w'
    /\ extensions app = ["db"; "login_manager"; "csrf"; "talisman"; "limiter"]
    /\ tables_created app = true
    /\ is_Some (config app)
    /\ config app = sys_modules w'.
Proof.
  intros H. destruct (create_app_returns w H) as (c & w' & _ & Hc & E).
  rewrite E. eexists _, _. split; [reflexivity|].
  cbn [extensions tables_created config].
  split; [reflexivity|]. split; [reflexivity|].
  split; [eexists; reflexivity | symmetry; exact Hc].
Qed.

Lemma X9_app_is_fully_built_witness :
  (56 <= length (entropy scenario_process))%nat
  /\ exists app w',
       create_app scenario_process = Returned app w'
       /\ extensions app = ["db"; "login_manager"; "csrf"; "talisman"; "limiter"]
       /\ tables_created app = true.
Proof.
  split; [vm_compute; lia|].
  destruct (X9_app_is_fully_built scenario_process)
    as (app & w' & E & Hx & Ht & _); [right; vm_compute; lia|].
  exists app, w'. split; [exact E|]. split; [exact Hx | exact Ht].
Defined.

(** ** Restarts *)

(** X12. Once both secrets are supplied, by the environment or by the [.env]
    file, a restart reproduces the configuration: two starts whose
    [os.environ], after [load_dotenv()], agree on the four variables end
    with the same [Config], whatever bytes the entropy source gives to
    either. *)
Theorem X12_supplied_secrets_survive_restart (w1 w2 : World) :
  is_Some (merged_environ w1 !! "SECRET_KEY") ->
  is_Some (merged_environ w1 !! "FERNET_KEY") ->
  merged_environ w1 !! "SECRET_KEY" = merged_environ w2 !! "SECRET_KEY" ->
  merged_environ w1 !! "FERNET_KEY" = merged_environ w2 !! "FERNET_KEY" ->
  merged_environ w1 !! "DATABASE_URL" = merged_environ w2 !! "DATABASE_URL" ->
  merged_environ w1 !! "REDIS_URL" = merged_environ w2 !! "REDIS_URL" ->
  (56 <= length (entropy w1))%nat ->
  (56 <= length (entropy w2))%nat ->
  exists cfg w1' w2',
    loadConfig w1 = Returned cfg w1'
    /\ loadConfig w2 = Returned cfg w2'.
Proof.
  intros [s Hs] [f Hf] Es Ef Ed Er Hent1 Hent2.
  rewrite !loadConfig_returns by assumption.
  eexists _, _, _. split; [reflexivity|].
  f_equal. unfold built_Config.
  rewrite <- Es, <- Ef, <- Ed, <- Er, Hs, Hf. reflexivity.
Qed.

Lemma X12_supplied_secrets_survive_restart_witness :
  exists cfg w1' w2',
    loadConfig (set_entropy (repeat x00 56) provisioned_process)
    = Returned cfg w1'
    /\ loadConfig (set_entropy (repeat xff 60) provisioned_process)
       = Returned cfg w2'.
Proof.
  apply (X12_supplied_secrets_survive_restart
           (set_entropy (repeat x00 56) provisioned_process)
           (set_entropy (repeat xff 60) provisioned_process));
    try reflexivity;
    try (vm_compute; lia);
    (eexists; vm_compute; reflexivity).
Defined.
